(** * ResultsChecker: the class scan, the subject join and the CSV export

    A shallow embedding of [src/components/ResultsChecker.tsx].  The React
    component keeps its data in [useState] cells; here the cells are the
    fields of a record that every handler transforms.  The results endpoint
    is a function from the probe issued to the response it gets, so that a
    statement can quantify over everything the network may answer. *)

From Stdlib Require Import String Ascii List Bool Arith ZArith Lia.
From Stdlib Require Import QArith Qround Qabs DecimalString Permutation Sorted.
From Stdlib Require DecimalNat DecimalFacts Finite.
From Equations Require Import Equations.
Import ListNotations.

Close Scope Q_scope.
Open Scope nat_scope.
Open Scope string_scope.

(** ** The ECMAScript built-ins the component calls *)

Module JS.

(** A string is truthy when it is not empty. *)
Definition truthy (s : string) : bool :=
  match s with
  | EmptyString => false
  | String _ _ => true
  end.

(** [String.prototype.toUpperCase], on the ASCII letters: the codes the
    level field takes ("olc", "pr").  Other bytes are left as they are. *)
Definition upper_ascii (c : ascii) : ascii :=
  let n := nat_of_ascii c in
  if Nat.leb 97 n && Nat.leb n 122 then ascii_of_nat (n - 32) else c.

Fixpoint toUpperCase (s : string) : string :=
  match s with
  | EmptyString => EmptyString
  | String c s' => String (upper_ascii c) (toUpperCase s')
  end.

(** [String(n)] for a non-negative integer: its decimal digits. *)
Definition String_of_nat (n : nat) : string :=
  NilEmpty.string_of_uint (Nat.to_uint n).

Definition String_of_N (n : N) : string :=
  NilEmpty.string_of_uint (N.to_uint n).

(** The filler of [padStart]: [fill] repeated and cut to [n] characters. *)
Fixpoint repeat_fill (whole rest : string) (n : nat) : string :=
  match n with
  | O => EmptyString
  | S n' =>
      match rest with
      | String c rest' => String c (repeat_fill whole rest' n')
      | EmptyString =>
          match whole with
          | String c rest' => String c (repeat_fill whole rest' n')
          | EmptyString => EmptyString
          end
      end
  end.

(** [String.prototype.padStart(targetLength, fillString)]. *)
Definition padStart (targetLength : nat) (fillString s : string) : string :=
  if Nat.leb targetLength (String.length s) then s
  else if negb (truthy fillString) then s
  else repeat_fill fillString fillString (targetLength - String.length s) ++ s.

Definition dquote : ascii := "034"%char.
Definition newline : ascii := "010"%char.

(** [Array.prototype.join]. *)
Definition join (sep : string) (cells : list string) : string :=
  String.concat sep cells.

(** [Array.prototype.find]: the first element the predicate accepts. *)
Definition find {A : Type} (p : A -> bool) (l : list A) : option A :=
  List.find p l.

(** [a || b] on an optional string: [b] when [a] is absent or empty. *)
Definition or_else (a : option string) (b : string) : string :=
  match a with
  | Some s => if truthy s then s else b
  | None => b
  end.

(** [a ?? b]. *)
Definition nullish {A : Type} (a : option A) (b : A) : A :=
  match a with
  | Some x => x
  | None => b
  end.

(** [Array.prototype.sort(compare)].  The standard fixes the outcome for a
    consistent comparator, not the algorithm: the elements in ascending
    order of [compare], those that compare equal in their former order.
    Insertion from the right end computes that arrangement. *)
Fixpoint sort_insert {A : Type} (compare : A -> A -> Q) (x : A)
  (sorted : list A) : list A :=
  match sorted with
  | [] => [x]
  | y :: rest =>
      if Qle_bool (compare x y) 0 then x :: sorted
      else y :: sort_insert compare x rest
  end.

Fixpoint sort {A : Type} (compare : A -> A -> Q) (l : list A) : list A :=
  match l with
  | [] => []
  | x :: rest => sort_insert compare x (sort compare rest)
  end.

(** A [Set] of strings keeps its members in insertion order;
    [Array.from] lists them in that order. *)
Definition Set_has (set : list string) (x : string) : bool :=
  List.existsb (String.eqb x) set.

Definition Set_add (set : list string) (x : string) : list string :=
  if Set_has set x then set else set ++ [x].

(** A template literal prints an absent value as [undefined]. *)
Definition interpolate (a : option string) : string :=
  nullish a "undefined".

End JS.

(** ** Identifier synthesis (lines 142-143)

    The two lines that open the body of the scan loop, as a function of
    what they read. *)

Definition synthesize (schoolCode levelCode examYear : string) (seq : nat)
  : string :=
  let seqStr := JS.padStart 3 "0" (JS.String_of_nat seq) in
  schoolCode ++ JS.toUpperCase levelCode ++ seqStr ++ examYear.

(** The identifier as the specification words it: the sequence number
    written in decimal and preceded by as many zeros as it lacks digits to
    the width. *)
Definition zero_padded (width n : nat) : string :=
  let digits := JS.String_of_nat n in
  Nat.iter (width - String.length digits) (String "0") digits.

Definition synthesize_spec (schoolCode levelCode examYear : string) (seq : nat)
  : string :=
  String.concat EmptyString
    [schoolCode; JS.toUpperCase levelCode; zero_padded 3 seq; examYear].

(** ** The data model (lines 24-46)

    A JSON number is kept as the rational it denotes; a literal too large
    for a double, which decodes to an infinity, is left out.  A field is
    optional where the interface marks it so or where the code guards its
    use ([?.], [??], [||], [typeof], a truthiness test); the others have
    the type the interface gives them. *)

Definition number := Q.

Record Subject := mkSubject {
  subjectName : option string;          (* m?.subject?.subjectName *)
  subjectWeightedPercent : number;
  markPercent : option number;          (* typeof ... === "number" *)
  letterGrade : option string;          (* letterGrade ?? "-" *)
  subjectId : string
}.

Record StudentResult := mkStudentResult {
  studentNames : option string;
  studentIndexNumber : string;
  studentNationalId : option string;
  academicYear : string;
  attendedSchool : option string;
  weightedPercent : option number;      (* weightedPercent ?? 0 *)
  division : string;
  combination : option string;
  rawMark : option (list Subject);      (* Array.isArray(st.rawMark) *)
  placedSchoolName : option string;
  placedCombinationName : option string
}.

(** ** The results endpoint *)

(** What a [catch] clause receives: an [Error] with its message, or any
    other thrown value. *)
Inductive Exn :=
| Error (message : string)
| Thrown.

(** A decoded body: an object, whose [studentNames] may be absent, or a
    value that has no such property at all ([null], a number, an array). *)
Inductive Json :=
| JObject (r : StudentResult)
| JOther.

(** The response [fetch] resolves to: the [ok] flag of its status and what
    [res.json()] gives, which rejects on a body that is not JSON. *)
Record Response := mkResponse {
  ok : bool;
  json : Exn + Json
}.

(** The endpoint answers the lookup of an identifier issued as probe number
    [seq]: [fetch] rejects (a network failure) or resolves to a response. *)
Definition Endpoint := nat -> string -> Exn + Response.

(** [data && data.studentNames] *)
Definition has_name (data : Json) : bool :=
  match data with
  | JObject r =>
      match studentNames r with
      | Some s => JS.truthy s
      | None => false
      end
  | JOther => false
  end.

(** ** Statements that may throw or [continue] *)

Inductive Completion (A : Type) :=
| Normal (a : A)
| Throw (e : Exn)
| Continue.
Arguments Normal {A} a.
Arguments Throw {A} e.
Arguments Continue {A}.

(** The variables of the scan (lines 135-137), with the identifiers looked
    up so far, oldest first. *)
Record Locals := mkLocals {
  results : list StudentResult;
  seq : nat;
  emptyCount : nat;
  sent : list string
}.

Definition Cmd (A : Type) := Locals -> Completion A * Locals.

Definition ret {A} (a : A) : Cmd A := fun s => (Normal a, s).

Definition bind {A B} (c : Cmd A) (k : A -> Cmd B) : Cmd B :=
  fun s =>
    match c s with
    | (Normal a, s') => k a s'
    | (Throw e, s') => (Throw e, s')
    | (Continue, s') => (Continue, s')
    end.

Declare Scope cmd_scope.
Delimit Scope cmd_scope with cmd.
Notation "x <- c ;; k" := (bind c (fun x => k))
  (at level 61, c at next level, right associativity) : cmd_scope.
Notation "c ;; k" := (bind c (fun _ => k))
  (at level 61, right associativity) : cmd_scope.

(** [try { block } catch { handler }]: only a throw reaches the handler, and
    what the block did to the variables before it threw stays done. *)
Definition try_catch {A} (block handler : Cmd A) : Cmd A :=
  fun s =>
    match block s with
    | (Throw _, s') => handler s'
    | done => done
    end.

Definition continue_ {A} : Cmd A := fun s => (Continue, s).

(** [await p] on a promise already settled. *)
Definition await {A} (p : Exn + A) : Cmd A :=
  fun s =>
    match p with
    | inl e => (Throw e, s)
    | inr a => (Normal a, s)
    end.

Definition get_seq : Cmd nat := fun s => (Normal (seq s), s).

Definition incr_seq : Cmd unit :=
  fun s =>
    (Normal tt, mkLocals (results s) (S (seq s)) (emptyCount s) (sent s)).

Definition incr_emptyCount : Cmd unit :=
  fun s =>
    (Normal tt, mkLocals (results s) (seq s) (S (emptyCount s)) (sent s)).

Definition reset_emptyCount : Cmd unit :=
  fun s => (Normal tt, mkLocals (results s) (seq s) 0 (sent s)).

Definition push (data : StudentResult) : Cmd unit :=
  fun s =>
    (Normal tt, mkLocals (results s ++ [data]) (seq s) (emptyCount s) (sent s)).

(** ** The class scan (lines 120-194) *)

Definition MAX_CONSECUTIVE_EMPTY : nat := 20.
Definition MAX_STUDENTS : nat := 1000.

Section Scan.

Variable endpoint : Endpoint.
Variables schoolCode levelCode examYear : string.

(** [await fetch(url)]: the request leaves, then the promise settles. *)
Definition fetch (idx : string) : Cmd Response :=
  fun s =>
    await (endpoint (seq s) idx)
      (mkLocals (results s) (seq s) (emptyCount s) (sent s ++ [idx])).

Local Open Scope cmd_scope.

(** The body of the [while] (lines 142-164). *)
Definition probe : Cmd unit :=
  n <- get_seq ;;
  let idx := synthesize schoolCode levelCode examYear n in
  try_catch
    (res <- fetch idx ;;
     if negb (ok res) then
       incr_emptyCount ;; incr_seq ;; continue_
     else
       data <- await (json res) ;;
       match data with
       | JObject r =>
           if has_name data then push r ;; reset_emptyCount
           else incr_emptyCount
       | JOther => incr_emptyCount
       end)
    incr_emptyCount ;;
  incr_seq.

Local Close Scope cmd_scope.

(** The test of the [while] (line 141). *)
Definition guard (s : Locals) : bool :=
  Nat.ltb (emptyCount s) MAX_CONSECUTIVE_EMPTY && Nat.leb (seq s) MAX_STUDENTS.

(** One turn of the loop: a [continue] ends the body, not the loop. *)
Definition turn (s : Locals) : option Exn * Locals :=
  match probe s with
  | (Throw e, s') => (Some e, s')
  | (_, s') => (None, s')
  end.

(** The probes the sequence ceiling still allows. *)
Definition probes_left (s : Locals) : nat := S MAX_STUDENTS - seq s.

Arguments probes_left : simpl never.

(** [while (emptyCount < 20 && seq <= 1000) { ... }] *)
Equations? while_loop (s : Locals) : option Exn * Locals
  by wf (probes_left s) lt :=
  while_loop s with Equations.Prop.Logic.inspect (guard s) := {
    | exist _ false _ => (None, s)
    | exist _ true Hguard with Equations.Prop.Logic.inspect (turn s) := {
        | exist _ (Some e, s') _ => (Some e, s')
        | exist _ (None, s') Hturn => while_loop s' } }.
Proof.
  assert (Hseq : seq (snd (turn s)) = S (seq s)).
  { unfold turn, probe, bind, try_catch, fetch, await, get_seq.
    destruct (endpoint (seq s) _) as [e | [[] [e | [r | ]]]];
      try reflexivity.
    cbv beta iota delta [ok json negb].
    destruct (has_name (JObject r)); reflexivity. }
  rewrite Hturn in Hseq. cbn in Hseq.
  unfold guard in Hguard. apply andb_prop in Hguard as [_ Hle].
  apply Nat.leb_le in Hle.
  unfold probes_left, MAX_STUDENTS in *. lia.
Qed.

End Scan.

(** ** The component state (lines 49-66) and the handlers *)

Record Toast := mkToast {
  title : string;
  description : string;
  destructive : bool
}.

(** The [useState] cells the class tab uses, the toasts shown and the
    identifiers looked up on the network, both oldest first. *)
Record Component := mkComponent {
  schoolCode : string;
  levelCode : string;
  examYear : string;
  classLoading : bool;
  classResults : list StudentResult;
  classSchoolName : string;
  isClassModalOpen : bool;
  toasts : list Toast;
  requests : list string
}.

Definition setClassLoading (b : bool) (c : Component) : Component :=
  mkComponent (schoolCode c) (levelCode c) (examYear c) b (classResults c)
    (classSchoolName c) (isClassModalOpen c) (toasts c) (requests c).

Definition setClassResults (rs : list StudentResult) (c : Component)
  : Component :=
  mkComponent (schoolCode c) (levelCode c) (examYear c) (classLoading c) rs
    (classSchoolName c) (isClassModalOpen c) (toasts c) (requests c).

Definition setClassSchoolName (name : string) (c : Component) : Component :=
  mkComponent (schoolCode c) (levelCode c) (examYear c) (classLoading c)
    (classResults c) name (isClassModalOpen c) (toasts c) (requests c).

Definition setIsClassModalOpen (b : bool) (c : Component) : Component :=
  mkComponent (schoolCode c) (levelCode c) (examYear c) (classLoading c)
    (classResults c) (classSchoolName c) b (toasts c) (requests c).

Definition toast (t : Toast) (c : Component) : Component :=
  mkComponent (schoolCode c) (levelCode c) (examYear c) (classLoading c)
    (classResults c) (classSchoolName c) (isClassModalOpen c)
    (toasts c ++ [t]) (requests c).

Definition network (ids : list string) (c : Component) : Component :=
  mkComponent (schoolCode c) (levelCode c) (examYear c) (classLoading c)
    (classResults c) (classSchoolName c) (isClassModalOpen c)
    (toasts c) (requests c ++ ids).

Definition missing_information : Toast :=
  mkToast "Missing Information"
    "Please enter School Code, Level Code (OLC/PR), and Exam Year." true.

Definition class_results_retrieved (n : nat) : Toast :=
  mkToast "Class Results Retrieved!"
    ("Found results for " ++ JS.String_of_nat n ++ " students.") false.

Definition no_results_found : Toast :=
  mkToast "No Results Found"
    "No results found for this class. Double-check school code, level and year."
    true.

Definition error_toast (err : Exn) : Toast :=
  mkToast "Error"
    ("Error fetching class results: " ++
     match err with
     | Error message => message
     | Thrown => "Unknown error"
     end) true.

(** The comparator of line 167. *)
Definition by_weightedPercent (a b : StudentResult) : Q :=
  (JS.nullish (weightedPercent b) 0 - JS.nullish (weightedPercent a) 0)%Q.

(** The variables of a scan that starts (lines 135-137). *)
Definition scan_start : Locals := mkLocals [] 1 0 [].

(** The loop of lines 141-165 run from its start. *)
Definition scan (endpoint : Endpoint) (school level year : string)
  : option Exn * Locals :=
  while_loop endpoint school level year scan_start.

Definition fetchClassResults (endpoint : Endpoint) (c : Component)
  : Component :=
  if negb (JS.truthy (schoolCode c)) || negb (JS.truthy (levelCode c))
     || negb (JS.truthy (examYear c))
  then toast missing_information c
  else
    let c := setClassLoading true c in
    let c := setClassResults [] c in
    let c := setClassSchoolName EmptyString c in
    let '(thrown, s) :=
      scan endpoint (schoolCode c) (levelCode c) (examYear c) in
    let c := network (sent s) c in
    let c :=
      match thrown with
      | None =>
          let results := JS.sort by_weightedPercent (results s) in
          match results with
          | first :: _ =>
              let school := JS.nullish (attendedSchool first) EmptyString in
              let c := setClassSchoolName school c in
              let c := setClassResults results c in
              let c := setIsClassModalOpen true c in
              toast (class_results_retrieved (List.length results)) c
          | [] =>
              let c := toast no_results_found c in
              setClassResults results c
          end
      | Some err => toast (error_toast err) c
      end in
    setClassLoading false c.

(** ** The subject columns (lines 197-209) *)

Definition add_subject (subjectSet : list string) (m : Subject) : list string :=
  match subjectName m with
  | Some name =>
      if JS.truthy name then JS.Set_add subjectSet name else subjectSet
  | None => subjectSet
  end.

Definition add_student (subjectSet : list string) (st : StudentResult)
  : list string :=
  match rawMark st with
  | Some marks => List.fold_left add_subject marks subjectSet
  | None => subjectSet
  end.

Definition classSubjects (classResults : list StudentResult) : list string :=
  if Nat.eqb (List.length classResults) 0 then []
  else List.fold_left add_student classResults [].

(** The lookup of a cell (lines 246 and 672). *)
Definition markObj (student : StudentResult) (subject : string)
  : option Subject :=
  match rawMark student with
  | Some marks =>
      JS.find
        (fun m =>
           match subjectName m with
           | Some name => String.eqb name subject
           | None => false
           end)
        marks
  | None => None
  end.

(** ** The CSV export (lines 212-279) *)

Section Csv.

(** [Number::toString]: the shortest decimal that reads back as the same
    double.  It depends on the binary format, which a rational does not
    carry, so the export takes it as given. *)
Variable Number_toString : number -> string.

(** [Number.prototype.toFixed(fractionDigits)] on a finite number, after
    the steps of the standard: the sign apart, the integer [n] closest to
    [x * 10^f] (the larger one of two), its digits padded to [f + 1] and
    the point put before the last [f]. *)
Definition toFixed (fractionDigits : nat) (x : number) : string :=
  let s := if Qle_bool 0 x then EmptyString else "-" in
  let x := Qabs x in
  let m :=
    if Qle_bool (inject_Z (10 ^ 21)) x then Number_toString x
    else
      let scale := inject_Z (10 ^ Z.of_nat fractionDigits) in
      let n := Qfloor (x * scale + (1 # 2))%Q in
      let m := JS.String_of_N (Z.to_N n) in
      if Nat.eqb fractionDigits 0 then m
      else
        let m := JS.padStart (S fractionDigits) "0" m in
        let k := String.length m in
        String.substring 0 (k - fractionDigits) m ++ "." ++
        String.substring (k - fractionDigits) fractionDigits m in
  s ++ m.

(** [student.weightedPercent + "%"] *)
Definition percent_cell (w : option number) : string :=
  match w with
  | Some x => Number_toString x
  | None => "undefined"
  end ++ "%".

(** A subject cell of the export (lines 246-253). *)
Definition mark_cell (student : StudentResult) (subject : string) : string :=
  match markObj student subject with
  | Some markObj =>
      let mark :=
        match markPercent markObj with
        | Some p => toFixed 1 p ++ "%"
        | None => "-"
        end in
      let grade := JS.nullish (letterGrade markObj) "-" in
      mark ++ " (" ++ grade ++ ")"
  | None => "-"
  end.

Definition csv_headers (classSubjects : list string) : list string :=
  (["Index Number"; "Name"; "Weighted %"; "Division"; "Placed School";
    "Placed Combination"] ++ classSubjects)%list.

Definition csv_row (classSubjects : list string) (student : StudentResult)
  : list string :=
  List.fold_left (fun row subject => (row ++ [mark_cell student subject])%list)
    classSubjects
    [studentIndexNumber student;
     JS.interpolate (studentNames student);
     percent_cell (weightedPercent student);
     division student;
     JS.or_else (placedSchoolName student) "-";
     JS.or_else (placedCombinationName student) "-"].

(** [`"${cell}"`] *)
Definition quote_cell (cell : string) : string :=
  String JS.dquote cell ++ String JS.dquote EmptyString.

Definition csv_line (row : list string) : string :=
  JS.join "," (List.map quote_cell row).

Definition csvContent (classResults : list StudentResult) : string :=
  let columns := classSubjects classResults in
  let rows := List.map (csv_row columns) classResults in
  JS.join (String JS.newline EmptyString)
    (List.map csv_line (csv_headers columns :: rows)).

(** The file handed to the browser. *)
Record Download := mkDownload {
  filename : string;
  content : string
}.

Definition no_data : Toast :=
  mkToast "No Data" "No class results to export." true.

Definition export_complete : Toast :=
  mkToast "Export Complete" "Class results have been exported to CSV." false.

Definition exportClassResultsCSV (c : Component)
  : Component * option Download :=
  if Nat.eqb (List.length (classResults c)) 0 then (toast no_data c, None)
  else
    let file :=
      mkDownload
        ("class_results_" ++ schoolCode c ++ "_" ++ levelCode c ++ "_" ++
         examYear c ++ ".csv")
        (csvContent (classResults c)) in
    (toast export_complete c, Some file).

End Csv.

(** ** Grade colours (lines 12-22) *)

Definition getGradeColor (grade : string) : string :=
  if String.eqb grade "A" then "bg-success text-success-foreground"
  else if String.eqb grade "S" then "bg-primary text-primary-foreground"
  else if String.eqb grade "D" then "bg-warning text-warning-foreground"
  else if String.eqb grade "C" then "bg-accent text-accent-foreground"
  else if String.eqb grade "F" then "bg-destructive text-destructive-foreground"
  else "bg-muted text-muted-foreground".

(** ** The individual lookup (lines 68-117)

    The cells this handler reads and writes are apart from those of the
    class tab, so they make a record of their own. *)

Inductive Tab :=
| ADVANCED
| ORDINARY
| CLASS.

Record Individual := mkIndividual {
  activeTab : Tab;
  indexNumber : string;
  nationalId : string;
  loading : bool;
  result : option StudentResult;
  isModalOpen : bool;
  shown : list Toast;
  fetched : list string
}.

(** The service answers a URL. *)
Definition Service := string -> Exn + Response.

Definition api : string :=
  "https://secondary.sdms.gov.rw/api//api/results-publication/".

(** The cache-busting tail of a URL: [Date.now()], an integer, and
    [Math.random()] as printed. *)
Definition cache_busting (now : N) (random : string) : string :=
  "&_t=" ++ JS.String_of_N now ++ "&_cb=" ++ random.

(** The URL of lines 83-88. *)
Definition apiUrl (c : Individual) (now : N) (random : string) : string :=
  match activeTab c with
  | ORDINARY =>
      api ++ "findByIndex?indexNumber=" ++ indexNumber c ++
      cache_busting now random
  | _ =>
      api ++ "findByIndexAndNationalId?indexNumber=" ++ indexNumber c ++
      "&nationalId=" ++ nationalId c ++ cache_busting now random
  end.

Definition show (t : Toast) (c : Individual) : Individual :=
  mkIndividual (activeTab c) (indexNumber c) (nationalId c) (loading c)
    (result c) (isModalOpen c) (shown c ++ [t]) (fetched c).

Definition setLoading (b : bool) (c : Individual) : Individual :=
  mkIndividual (activeTab c) (indexNumber c) (nationalId c) b
    (result c) (isModalOpen c) (shown c) (fetched c).

Definition setResult (r : option StudentResult) (c : Individual)
  : Individual :=
  mkIndividual (activeTab c) (indexNumber c) (nationalId c) (loading c)
    r (isModalOpen c) (shown c) (fetched c).

Definition setIsModalOpen (b : bool) (c : Individual) : Individual :=
  mkIndividual (activeTab c) (indexNumber c) (nationalId c) (loading c)
    (result c) b (shown c) (fetched c).

(** The handler of the national identity input (line 328). *)
Definition setNationalId (id : string) (c : Individual) : Individual :=
  mkIndividual (activeTab c) (indexNumber c) id (loading c)
    (result c) (isModalOpen c) (shown c) (fetched c).

Definition request (url : string) (c : Individual) : Individual :=
  mkIndividual (activeTab c) (indexNumber c) (nationalId c) (loading c)
    (result c) (isModalOpen c) (shown c) (fetched c ++ [url]).

Definition missing_fields : Toast :=
  mkToast "Missing Information" "Please enter all required fields." true.

Definition results_retrieved : Toast :=
  mkToast "Results Retrieved!" "Your results have been successfully loaded."
    false.

Definition no_result_found : Toast :=
  mkToast "No Results Found" "Please check your details and try again." true.

Definition lookup_error (err : Exn) : Toast :=
  mkToast "Error"
    ("Error fetching results: " ++
     match err with
     | Error message => message
     | Thrown => "Unknown error"
     end) true.

(** Lines 90-92: the decoded body, or what the [try] block throws. *)
Definition decoded (answer : Exn + Response) : Exn + Json :=
  match answer with
  | inl e => inl e
  | inr res =>
      if negb (ok res) then inl (Error "Failed to fetch results")
      else json res
  end.

Definition is_advanced (t : Tab) : bool :=
  match t with
  | ADVANCED => true
  | _ => false
  end.

Definition getResults (service : Service) (now : N) (random : string)
  (c : Individual) : Individual :=
  if negb (JS.truthy (indexNumber c))
     || (is_advanced (activeTab c) && negb (JS.truthy (nationalId c)))
  then show missing_fields c
  else
    let c := setLoading true c in
    let c := setResult None c in
    let url := apiUrl c now random in
    let c := request url c in
    let c :=
      match decoded (service url) with
      | inr data =>
          match data with
          | JObject r =>
              if has_name data then
                let c := setResult (Some r) c in
                let c := setIsModalOpen true c in
                show results_retrieved c
              else show no_result_found c
          | JOther => show no_result_found c
          end
      | inl err => show (lookup_error err) c
      end in
    setLoading false c.

(** ** The class table (lines 626-691) *)

(** The text of a cell cut to [limit] characters (lines 643, 653, 663 and
    668): [s.length > limit ? `${s.substring(0, limit)}...` : s].  A
    character is a byte here, which is right for ASCII text. *)
Definition ellipsis (limit : nat) (s : string) : string :=
  if Nat.ltb limit (String.length s) then String.substring 0 limit s ++ "..."
  else s.

Definition subject_label (subject : string) : string := ellipsis 10 subject.

Definition placed_label (placed : option string) : string :=
  match placed with
  | Some s => if JS.truthy s then ellipsis 15 s else "-"
  | None => "-"
  end.

(** What a subject cell of the table shows: the mark, the class of the
    badge and the grade in it. *)
Record MarkBadge := mkMarkBadge {
  mark_text : string;
  badge_class : string;
  badge_grade : string
}.

Section Table.

Variable Number_toString : number -> string.

(** Lines 671-687: a dash when the student has no mark under the subject. *)
Definition table_cell (student : StudentResult) (subject : string)
  : option MarkBadge :=
  let found := markObj student subject in
  let mark :=
    match found with
    | Some m =>
        match markPercent m with
        | Some p => toFixed Number_toString 1 p ++ "%"
        | None => "-"
        end
    | None => "-"
    end in
  let grade :=
    match found with
    | Some m => JS.nullish (letterGrade m) "-"
    | None => "-"
    end in
  match found with
  | Some _ =>
      let badge := getGradeColor grade ++ " text-xs px-1 py-0" in
      Some (mkMarkBadge mark badge grade)
  | None => None
  end.

End Table.

(** The card of line 434 is shown on the class tab while nothing is stored
    and no scan runs. *)
Definition empty_state (tab : Tab) (c : Component) : bool :=
  match tab with
  | CLASS => Nat.eqb (List.length (classResults c)) 0 && negb (classLoading c)
  | _ => false
  end.

(** ** The words of the specification *)

(** The two classes of a probe (section 4.2, step 3): found on a success
    status whose body carries a non-empty name, empty on anything else. *)
Inductive Outcome :=
| Found (record : StudentResult)
| Empty.

Definition classify (answer : Exn + Response) : Outcome :=
  match answer with
  | inl _ => Empty
  | inr res =>
      if ok res then
        match json res with
        | inr (JObject r) =>
            match studentNames r with
            | Some (String _ _) => Found r
            | _ => Empty
            end
        | _ => Empty
        end
      else Empty
  end.

Section Enumeration.

Variable endpoint : Endpoint.
Variables school level year : string.

(** What the endpoint answers to the probe of sequence number [n]. *)
Definition answer (n : nat) : Exn + Response :=
  endpoint n (synthesize school level year n).

(** The identifiers of [j] probes from sequence number [from] on. *)
Definition identifiers (from j : nat) : list string :=
  List.map (synthesize school level year) (List.seq from j).

(** Steps 4 to 6 of section 4.2. *)
Definition advance (s : Locals) : Locals :=
  let idx := synthesize school level year (seq s) in
  match classify (answer (seq s)) with
  | Found r => mkLocals (results s ++ [r]) (S (seq s)) 0 (sent s ++ [idx])
  | Empty =>
      mkLocals (results s) (S (seq s)) (S (emptyCount s)) (sent s ++ [idx])
  end.

(** The records of the found probes among the [j] from [from] on, in the
    order of their sequence numbers. *)
Definition found_records (from j : nat) : list StudentResult :=
  List.flat_map
    (fun n =>
       match classify (answer n) with
       | Found r => [r]
       | Empty => []
       end)
    (List.seq from j).

(** [k] probes on from [s], and from the start of a scan. *)
Definition run (k : nat) (s : Locals) : Locals := Nat.iter k advance s.

Definition trajectory (k : nat) : Locals := run k scan_start.

End Enumeration.

(** The weighted percent a record is ranked by. *)
Definition percent_of (r : StudentResult) : Q :=
  JS.nullish (weightedPercent r) 0%Q.

(** Ranked from the highest percent down. *)
Definition ranked (a b : StudentResult) : Prop :=
  (percent_of b <= percent_of a)%Q.

(** The records whose percent is [q], in the order of the list. *)
Definition with_percent (q : Q) (l : list StudentResult) : list StudentResult :=
  List.filter (fun r => Qeq_bool (percent_of r) q) l.

(** A record that carries a non-empty name. *)
Definition named (r : StudentResult) : Prop :=
  exists c rest, studentNames r = Some (String c rest).

(** The subject names of a record's marks, and of a set of records, in the
    order the marks come. *)
Definition mark_names (marks : list Subject) : list string :=
  List.flat_map
    (fun m =>
       match subjectName m with
       | Some name => [name]
       | None => []
       end)
    marks.

Definition subject_names (st : StudentResult) : list string :=
  mark_names (JS.nullish (rawMark st) []).

Definition all_subject_names (rs : list StudentResult) : list string :=
  List.flat_map subject_names rs.

(** A list without its repetitions: each member stays where it is first
    seen. *)
Fixpoint first_seen (l : list string) : list string :=
  match l with
  | [] => []
  | x :: rest =>
      x :: List.filter (fun y => negb (String.eqb y x)) (first_seen rest)
  end.

(** The columns as section 4.3 words them: the union of the subject names
    across all records, in first-seen order. *)
Definition union_of_subject_names (rs : list StudentResult) : list string :=
  first_seen (all_subject_names rs).

(** The sequence number a three-digit field of an identifier stands for. *)
Definition sequence_of (field : string) : option nat :=
  option_map Nat.of_uint (NilEmpty.uint_of_string field).

(** ** Sample classes *)

(** A record with a name and a weighted percent, and nothing else. *)
Definition pupil (name : string) (percent : number) : StudentResult :=
  mkStudentResult (Some name) EmptyString None "2025" None (Some percent)
    EmptyString None None None None.

Definition success (r : StudentResult) : Exn + Response :=
  inr (mkResponse true (inr (JObject r))).

(** An endpoint out of reach: every [fetch] rejects. *)
Definition unreachable : Endpoint :=
  fun _ _ => inl (Error "Failed to fetch").

(** A class of five, then nothing but 404 pages. *)
Definition class_of_five : Endpoint :=
  fun n _ =>
    if Nat.leb n 5 then success (pupil "N" (inject_Z (Z.of_nat n)))
    else inr (mkResponse false (inl (Error "Unexpected token"))).

(** An endpoint that has a record under every identifier. *)
Definition crowded : Endpoint := fun _ _ => success (pupil "N" 50%Q).

(** Three pupils with the percents 55, 90 and 70, in that order. *)
Definition class_of_three : Endpoint :=
  fun n _ =>
    match n with
    | 1 => success (pupil "A" 55%Q)
    | 2 => success (pupil "B" 90%Q)
    | 3 => success (pupil "C" 70%Q)
    | _ => inr (mkResponse true (inr JOther))
    end.

(** The component before any scan, the three fields of the class form
    filled in. *)
Definition form (school level year : string) : Component :=
  mkComponent school level year false [] EmptyString false [] [].

Definition mark (name : string) (percent : number) (grade : string)
  : Subject :=
  mkSubject (Some name) percent (Some percent) (Some grade) EmptyString.

Definition with_marks (r : StudentResult) (marks : list Subject)
  : StudentResult :=
  mkStudentResult (studentNames r) (studentIndexNumber r)
    (studentNationalId r) (academicYear r) (attendedSchool r)
    (weightedPercent r) (division r) (combination r) (Some marks)
    (placedSchoolName r) (placedCombinationName r).

(** Student A sat Math and Physics, student B Math and Chemistry. *)
Definition student_A : StudentResult :=
  with_marks (pupil "A" 80%Q) [mark "Math" 78%Q "A"; mark "Physics" 61%Q "C"].

Definition student_B : StudentResult :=
  with_marks (pupil "B" 70%Q) [mark "Math" 66%Q "C"; mark "Chemistry" 54%Q "D"].

(** A record one of whose marks has the empty string for subject name. *)
Definition student_with_unnamed_subject : StudentResult :=
  with_marks (pupil "A" 80%Q)
    [mark "Math" 78%Q "A"; mark EmptyString 61%Q "C"].


(** A service that knows one pupil, whatever the URL. *)
Definition one_pupil : Service := fun _ => success (pupil "A" 80%Q).

(** The individual tabs before any lookup. *)
Definition lookup_form (tab : Tab) (index id : string) : Individual :=
  mkIndividual tab index id false None false [] [].

(** A stand-in for [Number::toString] that is right on whole numbers. *)
Definition print_whole (x : number) : string :=
  NilEmpty.string_of_int (Z.to_int (Qfloor x)).


(** * Properties *)

(** ** Strings *)

Lemma upper_ascii_idempotent (c : ascii) :
  JS.upper_ascii (JS.upper_ascii c) = JS.upper_ascii c.
Proof. destruct c as [[] [] [] [] [] [] [] []]; reflexivity. Qed.

Lemma toUpperCase_idempotent (s : string) :
  JS.toUpperCase (JS.toUpperCase s) = JS.toUpperCase s.
Proof.
  induction s as [| c s IH]; cbn; [reflexivity |].
  now rewrite upper_ascii_idempotent, IH.
Qed.

Lemma repeat_fill_zero (k : nat) (rest : string) :
  rest = "0" \/ rest = EmptyString ->
  JS.repeat_fill "0" rest k = Nat.iter k (String "0") EmptyString.
Proof.
  revert rest. induction k as [| k IH]; intros rest Hrest; [reflexivity |].
  destruct Hrest as [-> | ->]; cbn; f_equal; apply IH; now right.
Qed.

Lemma iter_zero_append (k : nat) (d : string) :
  Nat.iter k (String "0") EmptyString ++ d = Nat.iter k (String "0") d.
Proof.
  induction k as [| k IH]; [reflexivity |].
  change (String "0" (Nat.iter k (String "0") EmptyString ++ d) =
          String "0" (Nat.iter k (String "0") d)).
  now rewrite IH.
Qed.

Lemma padStart_zero_padded (width n : nat) :
  JS.padStart width "0" (JS.String_of_nat n) = zero_padded width n.
Proof.
  unfold JS.padStart, zero_padded. cbn zeta.
  destruct (Nat.leb width (String.length (JS.String_of_nat n))) eqn:Hlen.
  - apply Nat.leb_le in Hlen.
    replace (width - String.length (JS.String_of_nat n)) with 0 by lia.
    reflexivity.
  - cbn [JS.truthy negb].
    rewrite repeat_fill_zero by now left. apply iter_zero_append.
Qed.


(** C4: the identifier is the school code, the level code in upper case, the
    sequence number zero-padded to three digits and the exam year, joined
    in that order; it takes the same value on a level code whatever its
    case; and it gives the two identifiers the specification quotes. *)
Theorem synthesize_is_concatenation :
  forall (schoolCode levelCode examYear : string) (sequence : nat),
    synthesize schoolCode levelCode examYear sequence =
      synthesize_spec schoolCode levelCode examYear sequence
    /\ synthesize schoolCode levelCode examYear sequence =
         schoolCode ++ JS.toUpperCase levelCode ++ zero_padded 3 sequence ++
         examYear
    /\ synthesize schoolCode (JS.toUpperCase levelCode) examYear sequence =
         synthesize schoolCode levelCode examYear sequence
    /\ synthesize "123456" "olc" "2025" 7 = "123456OLC0072025"
    /\ synthesize schoolCode levelCode "2025" 123 =
         schoolCode ++ JS.toUpperCase levelCode ++ "1232025".
Proof.
  intros schoolCode levelCode examYear sequence.
  assert (Hcat : synthesize schoolCode levelCode examYear sequence =
                 schoolCode ++ JS.toUpperCase levelCode ++
                 zero_padded 3 sequence ++ examYear).
  { unfold synthesize. cbn zeta. now rewrite padStart_zero_padded. }
  repeat split.
  - rewrite Hcat. unfold synthesize_spec. reflexivity.
  - exact Hcat.
  - unfold synthesize. now rewrite toUpperCase_idempotent.
Qed.

(** ** One turn of the scan *)

Section ScanProperties.

Variable ep : Endpoint.
Variables sc lc yr : string.

Lemma turn_advance (s : Locals) :
  turn ep sc lc yr s = (None, advance ep sc lc yr s).
Proof.
  unfold turn, advance, answer, probe, bind, try_catch,
    fetch, await, get_seq, classify.
  cbv zeta.
  destruct (ep (seq s) _) as [e | [[] [e | [r | ]]]]; try reflexivity.
  cbv beta iota delta [ok json negb has_name JS.truthy].
  destruct (studentNames r) as [[| c name] |]; reflexivity.
Qed.

Lemma while_loop_step (s : Locals) :
  while_loop ep sc lc yr s =
  if guard s then while_loop ep sc lc yr (advance ep sc lc yr s)
  else (None, s).
Proof.
  apply (while_loop_elim ep sc lc yr
           (fun s r =>
              r = if guard s
                  then while_loop ep sc lc yr (advance ep sc lc yr s)
                  else (None, s))).
  - intros s0 Hguard _. now rewrite Hguard.
  - intros s0 e s' Hturn Hguard _ _.
    pose proof (turn_advance s0) as Hadv.
    rewrite Hturn in Hadv. discriminate Hadv.
  - intros s0 s' Hturn Hguard _ _ _.
    pose proof (turn_advance s0) as Hadv.
    rewrite Hturn in Hadv. injection Hadv as ->. now rewrite Hguard.
Qed.

Lemma advance_seq (s : Locals) : seq (advance ep sc lc yr s) = S (seq s).
Proof. unfold advance. cbv zeta. now destruct (classify _). Qed.

Lemma advance_sent (s : Locals) :
  sent (advance ep sc lc yr s) =
  (sent s ++ [synthesize sc lc yr (seq s)])%list.
Proof. unfold advance. cbv zeta. now destruct (classify _). Qed.

Lemma advance_emptyCount (s : Locals) :
  emptyCount (advance ep sc lc yr s) <= S (emptyCount s).
Proof. unfold advance. cbv zeta. destruct (classify _); cbn; lia. Qed.

Lemma run_succ (k : nat) (s : Locals) :
  run ep sc lc yr (S k) s = advance ep sc lc yr (run ep sc lc yr k s).
Proof. reflexivity. Qed.

Lemma run_succ_r (k : nat) (s : Locals) :
  run ep sc lc yr (S k) s = run ep sc lc yr k (advance ep sc lc yr s).
Proof. unfold run. apply Nat.iter_succ_r. Qed.

Lemma run_seq (k : nat) (s : Locals) : seq (run ep sc lc yr k s) = k + seq s.
Proof.
  induction k as [| k IH]; [reflexivity |].
  rewrite run_succ, advance_seq, IH. lia.
Qed.

Lemma run_sent_length (k : nat) (s : Locals) :
  List.length (sent (run ep sc lc yr k s)) = k + List.length (sent s).
Proof.
  induction k as [| k IH]; [reflexivity |].
  rewrite run_succ, advance_sent, List.length_app, IH. cbn. lia.
Qed.

(** The loop ends in the first state of its run that fails the test. *)
Lemma while_loop_stops (s : Locals) :
  exists n,
    while_loop ep sc lc yr s = (None, run ep sc lc yr n s)
    /\ guard (run ep sc lc yr n s) = false
    /\ forall k, k < n -> guard (run ep sc lc yr k s) = true.
Proof.
  remember (probes_left s) as m eqn:Hm.
  revert s Hm. induction m as [m IH] using lt_wf_ind. intros s Hm.
  rewrite while_loop_step. destruct (guard s) eqn:Hguard.
  - destruct (IH (probes_left (advance ep sc lc yr s)))
      with (s := advance ep sc lc yr s)
      as (n & Hloop & Hstop & Hrun); [| reflexivity |].
    + subst m. unfold probes_left. rewrite advance_seq.
      unfold guard in Hguard. apply andb_prop in Hguard as [_ Hle].
      apply Nat.leb_le in Hle. unfold MAX_STUDENTS in *. lia.
    + exists (S n). rewrite run_succ_r. repeat split; trivial.
      intros [| k] Hk; [exact Hguard |].
      rewrite run_succ_r. apply Hrun. lia.
  - exists 0. repeat split; trivial. intros k Hk. lia.
Qed.

Lemma guard_true (s : Locals) :
  guard s = true <->
  emptyCount s < MAX_CONSECUTIVE_EMPTY /\ seq s <= MAX_STUDENTS.
Proof.
  unfold guard. rewrite andb_true_iff, Nat.ltb_lt, Nat.leb_le. reflexivity.
Qed.

End ScanProperties.

(** A scan ends, without an exception, somewhere on its trajectory. *)
Lemma scan_on_trajectory (ep : Endpoint) (sc lc yr : string) :
  exists n,
    scan ep sc lc yr = (None, trajectory ep sc lc yr n)
    /\ List.length (sent (trajectory ep sc lc yr n)) = n.
Proof.
  destruct (while_loop_stops ep sc lc yr scan_start) as (n & Hloop & _).
  exists n. split; [exact Hloop |].
  unfold trajectory. rewrite run_sent_length. cbn. lia.
Qed.

(** C5: a turn of the loop never throws.  It issues one lookup, of the
    identifier synthesized for the current sequence number, and adds one to
    the sequence counter.  On a found answer it appends the record and puts
    the empty counter back to 0; on any other answer it leaves the records
    as they are and adds one to the empty counter.  A network error, a
    status that is not a success, a body that does not decode and a body
    without a non-empty name are all empty answers; a success with a
    non-empty name is a found one. *)
Theorem probe_outcome :
  forall (endpoint : Endpoint) (school level year : string) (s : Locals),
    let idx := synthesize school level year (seq s) in
    let s' := snd (turn endpoint school level year s) in
    (fst (turn endpoint school level year s) = None
     /\ forall e, fst (probe endpoint school level year s) <> Throw e)
    /\ seq s' = S (seq s)
    /\ sent s' = (sent s ++ [idx])%list
    /\ match classify (endpoint (seq s) idx) with
       | Found r => results s' = (results s ++ [r])%list /\ emptyCount s' = 0
       | Empty => results s' = results s /\ emptyCount s' = S (emptyCount s)
       end
    /\ ((forall e, classify (inl e) = Empty)
        /\ (forall body, classify (inr (mkResponse false body)) = Empty)
        /\ (forall e, classify (inr (mkResponse true (inl e))) = Empty)
        /\ classify (inr (mkResponse true (inr JOther))) = Empty
        /\ (forall r,
              studentNames r = None \/ studentNames r = Some EmptyString ->
              classify (inr (mkResponse true (inr (JObject r)))) = Empty)
        /\ (forall r c name,
              studentNames r = Some (String c name) ->
              classify (inr (mkResponse true (inr (JObject r)))) = Found r)).
Proof.
  intros endpoint school level year s idx s'.
  pose proof (turn_advance endpoint school level year s) as Hturn.
  assert (Hs' : s' = advance endpoint school level year s)
    by (unfold s'; now rewrite Hturn).
  split; [split |].
  - now rewrite Hturn.
  - intros e He. unfold turn in Hturn.
    destruct (probe endpoint school level year s) as [[a | e' |] s0];
      cbn in He; try discriminate He. discriminate Hturn.
  - rewrite Hs'. split; [apply advance_seq |].
    split; [apply advance_sent |].
    split.
    + unfold advance, answer. cbv zeta. fold idx.
      destruct (classify (endpoint (seq s) idx)); now split.
    + repeat split; try reflexivity.
      * intros r [Hname | Hname]; cbn; now rewrite Hname.
      * intros r c name Hname. cbn. now rewrite Hname.
Qed.

(** C1: whatever the endpoint answers, the scan ends without an exception
    after some number [n <= 1000] of probes, one lookup each.  Its last
    state is the first of the run in which the empty counter has reached 20
    or the sequence counter has passed 1000: in every state before it the
    empty counter is below 20 and the sequence counter at most 1000. *)
Theorem scan_terminates :
  forall (endpoint : Endpoint) (school level year : string),
    let state := trajectory endpoint school level year in
    exists n,
      n <= 1000
      /\ scan endpoint school level year = (None, state n)
      /\ List.length (sent (state n)) = n
      /\ (emptyCount (state n) = 20 \/ seq (state n) = 1001)
      /\ (forall k, k < n -> emptyCount (state k) < 20 /\ seq (state k) <= 1000)
      /\ (forall k, k < n ->
            turn endpoint school level year (state k) = (None, state (S k))).
Proof.
  intros endpoint school level year state.
  destruct (while_loop_stops endpoint school level year scan_start)
    as (n & Hloop & Hstop & Hrun).
  assert (Hseq : forall k, seq (state k) = S k).
  { intros k. unfold state, trajectory. rewrite run_seq. cbn. lia. }
  assert (Hbefore : forall k,
             k < n -> emptyCount (state k) < 20 /\ seq (state k) <= 1000).
  { intros k Hk. apply guard_true, Hrun, Hk. }
  assert (Hn : n <= 1000).
  { destruct n as [| n]; [lia |].
    destruct (Hbefore n) as [_ Hle]; [lia |]. rewrite Hseq in Hle. lia. }
  exists n. repeat split; trivial.
  - unfold state, trajectory. rewrite run_sent_length. cbn. lia.
  - assert (Hnot : ~ (emptyCount (state n) < 20 /\ seq (state n) <= 1000)).
    { intros Hg. apply guard_true in Hg. unfold state, trajectory in Hg.
      rewrite Hstop in Hg. discriminate Hg. }
    assert (Hle : emptyCount (state n) <= 20).
    { destruct n as [| n]; [cbn; lia |].
      destruct (Hbefore n) as [Hlt _]; [lia |].
      pose proof (advance_emptyCount endpoint school level year (state n)).
      unfold state, trajectory in *. rewrite run_succ. lia. }
    rewrite Hseq in *. lia.
  - apply Hbefore; assumption.
  - apply Hbefore; assumption.
  - intros k Hk. unfold state, trajectory. rewrite run_succ.
    apply turn_advance.
Qed.

(** ** Runs of found and of empty answers *)

Section Runs.

Variable ep : Endpoint.
Variables sc lc yr : string.

Lemma while_loop_at (n : nat) (s : Locals) :
  guard (run ep sc lc yr n s) = false ->
  (forall k, k < n -> guard (run ep sc lc yr k s) = true) ->
  while_loop ep sc lc yr s = (None, run ep sc lc yr n s).
Proof.
  revert s. induction n as [| n IH]; intros s Hstop Hrun;
    rewrite while_loop_step.
  - cbn in Hstop. now rewrite Hstop.
  - assert (H0 : guard s = true) by (apply (Hrun 0); lia).
    rewrite H0. rewrite run_succ_r in Hstop |- *. apply IH; trivial.
    intros k Hk. rewrite <- run_succ_r. apply Hrun. lia.
Qed.

Lemma advance_empty (s : Locals) :
  classify (answer ep sc lc yr (seq s)) = Empty ->
  advance ep sc lc yr s =
  mkLocals (results s) (S (seq s)) (S (emptyCount s))
    (sent s ++ [synthesize sc lc yr (seq s)]).
Proof. intros Hempty. unfold advance. cbv zeta. now rewrite Hempty. Qed.

Lemma advance_found (s : Locals) (r : StudentResult) :
  classify (answer ep sc lc yr (seq s)) = Found r ->
  advance ep sc lc yr s =
  mkLocals (results s ++ [r]) (S (seq s)) 0
    (sent s ++ [synthesize sc lc yr (seq s)]).
Proof. intros Hfound. unfold advance. cbv zeta. now rewrite Hfound. Qed.

Lemma run_empty (j : nat) (s : Locals) :
  (forall k, k < j -> classify (answer ep sc lc yr (seq s + k)) = Empty) ->
  run ep sc lc yr j s =
  mkLocals (results s) (j + seq s) (j + emptyCount s)
    (sent s ++ identifiers sc lc yr (seq s) j).
Proof.
  revert s. induction j as [| j IH]; intros s Hempty.
  - destruct s. cbn. now rewrite List.app_nil_r.
  - assert (Hadv := advance_empty s).
    rewrite <- (Nat.add_0_r (seq s)) in Hadv at 1.
    specialize (Hadv (Hempty 0 ltac:(lia))).
    rewrite run_succ_r, IH.
    + rewrite Hadv. cbn [results seq emptyCount sent].
      unfold identifiers. cbn [List.seq List.map].
      rewrite <- List.app_assoc. cbn [List.app]. f_equal; lia.
    + intros k Hk. rewrite advance_seq.
      replace (S (seq s) + k) with (seq s + S k) by lia.
      apply Hempty. lia.
Qed.

Lemma run_found (record : nat -> StudentResult) (j : nat) (s : Locals) :
  (forall k, k < j ->
     classify (answer ep sc lc yr (seq s + k)) = Found (record (seq s + k))) ->
  run ep sc lc yr j s =
  mkLocals (results s ++ List.map record (List.seq (seq s) j)) (j + seq s)
    (match j with 0 => emptyCount s | S _ => 0 end)
    (sent s ++ identifiers sc lc yr (seq s) j).
Proof.
  revert s. induction j as [| j IH]; intros s Hfound.
  - destruct s. cbn. now rewrite !List.app_nil_r.
  - assert (Hadv := advance_found s (record (seq s))).
    pose proof (Hfound 0 ltac:(lia)) as H0. rewrite Nat.add_0_r in H0.
    specialize (Hadv H0).
    rewrite run_succ_r, IH.
    + rewrite Hadv. cbn [results seq emptyCount sent].
      unfold identifiers. cbn [List.seq List.map].
      rewrite <- !List.app_assoc. cbn [List.app].
      f_equal; [lia | now destruct j].
    + intros k Hk. rewrite advance_seq.
      replace (S (seq s) + k) with (seq s + S k) by lia.
      apply Hfound. lia.
Qed.

Lemma run_add (j k : nat) (s : Locals) :
  run ep sc lc yr (j + k) s = run ep sc lc yr k (run ep sc lc yr j s).
Proof.
  revert s. induction j as [| j IH]; intros s; [reflexivity |].
  cbn [Nat.add]. now rewrite !run_succ_r, IH.
Qed.

End Runs.

(** ** Scans on given answers *)

(** C3: when the probes of sequence numbers 1 to 5 are found and every later
    one is empty, the scan ends after the probe of sequence number 25: it
    has looked up the 25 identifiers of 1 to 25 and no other, it holds the
    five records in the order found, and the empty counter stands at 20. *)
Theorem scan_five_found_then_empty :
  forall (endpoint : Endpoint) (school level year : string)
         (record : nat -> StudentResult),
    (forall n, 1 <= n <= 5 ->
       classify (answer endpoint school level year n) = Found (record n)) ->
    (forall n, 5 < n ->
       classify (answer endpoint school level year n) = Empty) ->
    let final :=
      mkLocals (List.map record [1; 2; 3; 4; 5]) 26 20
        (identifiers school level year 1 25) in
    scan endpoint school level year = (None, final)
    /\ List.length (sent final) = 25
    /\ List.last (sent final) EmptyString = synthesize school level year 25.
Proof.
  intros endpoint school level year record Hfound Hempty final.
  assert (Hfive : forall j, j <= 5 ->
            run endpoint school level year j scan_start =
            mkLocals (List.map record (List.seq 1 j)) (j + 1)
              0 (identifiers school level year 1 j)).
  { intros j Hj. rewrite (run_found endpoint school level year record).
    - cbn [results seq emptyCount sent scan_start List.app].
      f_equal. now destruct j.
    - intros k Hk. apply Hfound. cbn. lia. }
  assert (Hlater : forall j, j <= 20 ->
            run endpoint school level year (5 + j) scan_start =
            mkLocals (List.map record [1; 2; 3; 4; 5]) (j + 6) j
              (identifiers school level year 1 5 ++
               identifiers school level year 6 j)).
  { intros j Hj. rewrite run_add, (Hfive 5) by lia. rewrite run_empty.
    - cbn [results seq emptyCount sent]. f_equal; lia.
    - intros k Hk. apply Hempty. cbn. lia. }
  split; [| split; reflexivity].
  unfold scan. rewrite (while_loop_at endpoint school level year 25).
  - change 25 with (5 + 20). now rewrite Hlater.
  - change 25 with (5 + 20). now rewrite Hlater.
  - intros k Hk. destruct (Nat.le_gt_cases k 5) as [Hle | Hgt].
    + rewrite Hfive by exact Hle. apply guard_true. cbn.
      unfold MAX_CONSECUTIVE_EMPTY, MAX_STUDENTS. lia.
    + replace k with (5 + (k - 5)) by lia. rewrite Hlater by lia.
      apply guard_true. cbn.
      unfold MAX_CONSECUTIVE_EMPTY, MAX_STUDENTS. lia.
Qed.

Lemma scan_five_found_then_empty_witness :
  scan class_of_five "123456" "olc" "2025" =
  (None,
   mkLocals
     (List.map (fun n => pupil "N" (inject_Z (Z.of_nat n))) [1; 2; 3; 4; 5])
     26 20 (identifiers "123456" "olc" "2025" 1 25)).
Proof.
  apply (scan_five_found_then_empty class_of_five "123456" "olc" "2025"
           (fun n => pupil "N" (inject_Z (Z.of_nat n)))).
  - intros n Hn. unfold answer, class_of_five.
    destruct (Nat.leb_spec n 5); [reflexivity | lia].
  - intros n Hn. unfold answer, class_of_five.
    destruct (Nat.leb_spec n 5); [lia | reflexivity].
Defined.

Section Streaks.

Variable ep : Endpoint.
Variables sc lc yr : string.

Lemma run_sent (k : nat) (s : Locals) :
  sent (run ep sc lc yr k s) = (sent s ++ identifiers sc lc yr (seq s) k)%list.
Proof.
  revert s. induction k as [| k IH]; intros s.
  - cbn. now rewrite List.app_nil_r.
  - rewrite run_succ_r, IH, advance_sent, advance_seq, <- List.app_assoc.
    reflexivity.
Qed.

(** The empty counter counts the empty answers at the end of the run. *)
Lemma emptyCount_streak (k : nat) :
  let e := emptyCount (trajectory ep sc lc yr k) in
  e <= k /\
  forall j, k - e < j <= k -> classify (answer ep sc lc yr j) = Empty.
Proof.
  induction k as [| k [IHle IHstreak]]; cbv zeta.
  - split; [cbn; lia |]. intros j Hj. cbn in Hj. lia.
  - unfold trajectory in *. rewrite run_succ.
    assert (Hseq : seq (run ep sc lc yr k scan_start) = S k)
      by (rewrite run_seq; cbn; lia).
    destruct (classify (answer ep sc lc yr (S k))) as [r |] eqn:Hclass.
    + rewrite (advance_found ep sc lc yr _ r) by now rewrite Hseq.
      cbn [emptyCount]. split; [lia |]. intros j Hj. lia.
    + rewrite advance_empty by now rewrite Hseq.
      cbn [emptyCount]. split; [lia |]. intros j Hj.
      destruct (Nat.eq_dec j (S k)) as [-> | Hne]; [exact Hclass |].
      apply IHstreak. lia.
Qed.

End Streaks.

(** C2, as the specification states it, fails on an endpoint out of reach:
    every probe is empty, and the scan stops after 20 lookups with the
    empty counter at 20, not after 1000 with the counter below 20. *)
Lemma scan_all_empty_counterexample :
  let final := snd (scan unreachable "123456" "olc" "2025") in
  (forall n, 1 <= n <= 1000 ->
     classify (answer unreachable "123456" "olc" "2025" n) = Empty)
  /\ List.length (sent final) = 20
  /\ emptyCount final = 20
  /\ ~ (List.length (sent final) = 1000 /\ emptyCount final < 20).
Proof.
  cbv zeta. split; [reflexivity |].
  assert (Hscan : scan unreachable "123456" "olc" "2025" =
                  (None,
                   mkLocals [] 21 20 (identifiers "123456" "olc" "2025" 1 20)))
    by (vm_compute; reflexivity).
  rewrite Hscan. cbn [snd sent emptyCount].
  repeat split. intros [Hlen _]. discriminate Hlen.
Qed.

(** C2, amended: when the probes of sequence numbers 1 to 20 are all empty
    the scan stops on the empty streak, after exactly the 20 lookups of 1 to
    20.  It makes exactly the 1000 lookups of 1 to 1000, and ends with the
    empty counter below 20, when no 20 probes in a row among them are
    empty. *)
Theorem scan_all_empty :
  forall (endpoint : Endpoint) (school level year : string),
    ((forall n, 1 <= n <= 20 ->
        classify (answer endpoint school level year n) = Empty) ->
     scan endpoint school level year =
     (None, mkLocals [] 21 20 (identifiers school level year 1 20)))
    /\ ((forall first, 1 <= first -> first + 19 <= 1000 ->
           exists n, first <= n <= first + 19 /\
                     classify (answer endpoint school level year n) <> Empty) ->
        exists final,
          scan endpoint school level year = (None, final)
          /\ sent final = identifiers school level year 1 1000
          /\ List.length (sent final) = 1000
          /\ seq final = 1001
          /\ emptyCount final < 20).
Proof.
  intros endpoint school level year. split.
  - intros Hempty.
    assert (Hrun : forall j, j <= 20 ->
              run endpoint school level year j scan_start =
              mkLocals [] (j + 1) j (identifiers school level year 1 j)).
    { intros j Hj. rewrite run_empty.
      - cbn [results seq emptyCount sent scan_start List.app].
        f_equal; lia.
      - intros k Hk. apply Hempty. cbn. lia. }
    unfold scan. rewrite (while_loop_at endpoint school level year 20).
    + now rewrite Hrun.
    + now rewrite Hrun.
    + intros k Hk. rewrite Hrun by lia. apply guard_true. cbn.
      unfold MAX_CONSECUTIVE_EMPTY, MAX_STUDENTS. lia.
  - intros Hwindow.
    assert (Hbelow : forall k, k <= 1000 ->
              emptyCount (run endpoint school level year k scan_start) < 20).
    { intros k Hk.
      destruct (emptyCount_streak endpoint school level year k)
        as [Hle Hstreak].
      unfold trajectory in Hle, Hstreak.
      destruct (Nat.lt_ge_cases
                  (emptyCount (run endpoint school level year k scan_start))
                  20)
        as [Hlt | Hge]; [exact Hlt | exfalso].
      destruct (Hwindow (k - 19)) as (n & Hn & Hfound); [lia | lia |].
      apply Hfound, Hstreak. lia. }
    assert (Hseq : forall k,
              seq (run endpoint school level year k scan_start) = S k).
    { intros k. rewrite run_seq. unfold scan_start, seq. lia. }
    exists (run endpoint school level year 1000 scan_start).
    split; [| split; [| split; [| split]]].
    + unfold scan. apply while_loop_at.
      * apply not_true_is_false. intros Hguard.
        apply guard_true in Hguard as [_ Hle].
        rewrite Hseq in Hle. unfold MAX_STUDENTS in Hle. lia.
      * intros k Hk. apply guard_true.
        rewrite Hseq. unfold MAX_CONSECUTIVE_EMPTY, MAX_STUDENTS.
        split; [apply Hbelow |]; lia.
    + rewrite run_sent. reflexivity.
    + rewrite run_sent_length. reflexivity.
    + apply Hseq.
    + apply Hbelow. lia.
Qed.

Lemma scan_all_empty_witness :
  scan unreachable "123456" "olc" "2025" =
  (None, mkLocals [] 21 20 (identifiers "123456" "olc" "2025" 1 20))
  /\ exists final,
       scan crowded "123456" "olc" "2025" = (None, final)
       /\ sent final = identifiers "123456" "olc" "2025" 1 1000
       /\ List.length (sent final) = 1000
       /\ seq final = 1001
       /\ emptyCount final < 20.
Proof.
  split.
  - apply (proj1 (scan_all_empty unreachable "123456" "olc" "2025")).
    intros n Hn. reflexivity.
  - apply (proj2 (scan_all_empty crowded "123456" "olc" "2025")).
    intros first Hfirst Hlast. exists first. split; [lia |].
    unfold answer, crowded. discriminate.
Defined.

(** ** The records kept *)

Lemma classify_found (a : Exn + Response) (r : StudentResult) :
  classify a = Found r -> named r.
Proof.
  unfold classify, named.
  destruct a as [e | [[] [e | [r' |]]]]; cbn; try discriminate.
  destruct (studentNames r') as [[| c rest] |] eqn:Hname; try discriminate.
  intros [= ->]. now exists c, rest.
Qed.

Lemma found_records_named (ep : Endpoint) (sc lc yr : string) (from j : nat) :
  List.Forall named (found_records ep sc lc yr from j).
Proof.
  unfold found_records. apply List.Forall_flat_map, List.Forall_forall.
  intros n _.
  destruct (classify (answer ep sc lc yr n)) as [r |] eqn:Hclass.
  - constructor; [| constructor]. exact (classify_found _ _ Hclass).
  - constructor.
Qed.

Lemma run_results (ep : Endpoint) (sc lc yr : string) (k : nat) (s : Locals) :
  results (run ep sc lc yr k s) =
  (results s ++ found_records ep sc lc yr (seq s) k)%list.
Proof.
  revert s. induction k as [| k IH]; intros s.
  - cbn. now rewrite List.app_nil_r.
  - rewrite run_succ_r, IH, advance_seq. unfold found_records.
    cbn [List.seq List.flat_map]. unfold advance. cbv zeta.
    destruct (classify (answer ep sc lc yr (seq s))); cbn [results].
    + now rewrite <- List.app_assoc.
    + reflexivity.
Qed.

(** C10: the records a scan ends with are those of its found probes, in the
    order of the sequence numbers, and nothing else: each of them carries a
    non-empty name, and an empty probe adds none. *)
Theorem results_are_named :
  forall (endpoint : Endpoint) (school level year : string),
    let final := snd (scan endpoint school level year) in
    List.Forall named (results final)
    /\ results final =
        found_records endpoint school level year 1 (List.length (sent final))
    /\ forall s, classify (answer endpoint school level year (seq s)) = Empty ->
                 results (snd (turn endpoint school level year s)) = results s.
Proof.
  intros endpoint school level year final.
  destruct (scan_on_trajectory endpoint school level year)
    as (n & Hscan & Hsent).
  assert (Hresults : results final =
                     found_records endpoint school level year 1
                       (List.length (sent final))).
  { unfold final. rewrite Hscan. cbn [snd]. rewrite Hsent.
    unfold trajectory. now rewrite run_results. }
  split; [| split].
  - rewrite Hresults. apply found_records_named.
  - exact Hresults.
  - intros s Hempty. rewrite turn_advance. cbn [snd].
    now rewrite advance_empty.
Qed.

(** ** The ranking (line 167) *)

Lemma compare_ranked (x y : StudentResult) :
  Qle_bool (by_weightedPercent x y) 0 = true <-> ranked x y.
Proof.
  unfold by_weightedPercent, ranked, percent_of. rewrite Qle_bool_iff.
  split; intros H.
  - apply Qplus_le_l with (z := (- JS.nullish (weightedPercent x) 0)%Q).
    now rewrite Qplus_opp_r.
  - apply Qplus_le_l with (z := (- JS.nullish (weightedPercent x) 0)%Q) in H.
    now rewrite Qplus_opp_r in H.
Qed.

Lemma ranked_total (x y : StudentResult) : ranked x y \/ ranked y x.
Proof.
  unfold ranked.
  destruct (Qlt_le_dec (percent_of x) (percent_of y)) as [Hlt | Hle].
  - right. now apply Qlt_le_weak.
  - now left.
Qed.

Lemma ranked_trans (x y z : StudentResult) :
  ranked x y -> ranked y z -> ranked x z.
Proof.
  unfold ranked. intros Hxy Hyz. now apply Qle_trans with (percent_of y).
Qed.

Lemma sort_insert_perm (x : StudentResult) (l : list StudentResult) :
  Permutation (x :: l) (JS.sort_insert by_weightedPercent x l).
Proof.
  induction l as [| y l IH]; cbn; [reflexivity |].
  destruct (Qle_bool (by_weightedPercent x y) 0); [reflexivity |].
  rewrite perm_swap. now constructor.
Qed.

Lemma sort_perm (l : list StudentResult) :
  Permutation l (JS.sort by_weightedPercent l).
Proof.
  induction l as [| x l IH]; cbn; [constructor |].
  rewrite <- sort_insert_perm. now constructor.
Qed.

Lemma sort_insert_sorted (x : StudentResult) (l : list StudentResult) :
  Sorted ranked l -> Sorted ranked (JS.sort_insert by_weightedPercent x l).
Proof.
  induction l as [| y l IH]; intros Hsorted; cbn.
  - repeat constructor.
  - destruct (Qle_bool (by_weightedPercent x y) 0) eqn:Hcmp.
    + constructor; [exact Hsorted |]. constructor. now apply compare_ranked.
    + assert (Hyx : ranked y x).
      { destruct (ranked_total x y) as [Hxy | Hyx]; [| exact Hyx].
        apply compare_ranked in Hxy. congruence. }
      inversion Hsorted as [| ? ? Htail Hhead]; subst.
      constructor; [now apply IH |].
      destruct l as [| z l]; cbn.
      * now constructor.
      * destruct (Qle_bool (by_weightedPercent x z) 0); constructor;
          [exact Hyx | now inversion Hhead].
Qed.

Lemma sort_sorted (l : list StudentResult) :
  StronglySorted ranked (JS.sort by_weightedPercent l).
Proof.
  apply Sorted_StronglySorted; [exact ranked_trans |].
  induction l as [| x l IH]; cbn; [constructor |].
  now apply sort_insert_sorted.
Qed.

(** An insertion never passes a record of the same percent. *)
Lemma sort_insert_stable (q : Q) (x : StudentResult) (l : list StudentResult) :
  with_percent q (JS.sort_insert by_weightedPercent x l) =
  with_percent q (x :: l).
Proof.
  unfold with_percent.
  induction l as [| y l IH]; [reflexivity |].
  cbn [JS.sort_insert].
  destruct (Qle_bool (by_weightedPercent x y) 0) eqn:Hcmp; [reflexivity |].
  cbn [List.filter] in *. rewrite IH.
  destruct (Qeq_bool (percent_of x) q) eqn:Hx;
    destruct (Qeq_bool (percent_of y) q) eqn:Hy; try reflexivity.
  exfalso. apply Qeq_bool_iff in Hx, Hy.
  assert (Hxy : ranked x y).
  { unfold ranked. rewrite Hx, Hy. apply Qle_refl. }
  apply compare_ranked in Hxy. congruence.
Qed.

Lemma sort_stable (q : Q) (l : list StudentResult) :
  with_percent q (JS.sort by_weightedPercent l) = with_percent q l.
Proof.
  induction l as [| x l IH]; [reflexivity |].
  cbn [JS.sort]. rewrite sort_insert_stable.
  unfold with_percent in *. cbn [List.filter]. now rewrite IH.
Qed.

Lemma truthy_nonempty (s : string) :
  s <> EmptyString -> JS.truthy s = true.
Proof. destruct s; [congruence | reflexivity]. Qed.

(** What a scan that starts leaves in [classResults]. *)
Lemma fetchClassResults_classResults (ep : Endpoint) (c : Component) :
  schoolCode c <> EmptyString ->
  levelCode c <> EmptyString ->
  examYear c <> EmptyString ->
  classResults (fetchClassResults ep c) =
  JS.sort by_weightedPercent
    (results (snd (scan ep (schoolCode c) (levelCode c) (examYear c)))).
Proof.
  intros Hsc Hlc Hyr. unfold fetchClassResults.
  rewrite !truthy_nonempty by assumption.
  cbn [negb orb schoolCode levelCode examYear setClassLoading setClassResults
       setClassSchoolName].
  destruct (scan_on_trajectory ep (schoolCode c) (levelCode c) (examYear c))
    as (n & Hscan & _).
  rewrite Hscan. cbn [snd].
  destruct (JS.sort by_weightedPercent _) as [| first rest]; reflexivity.
Qed.

(** C6: a scan that starts stores the records it found, each once, ranked
    from the highest weighted percent down, a record without one counting
    as 0; records of the same percent keep the order in which they were
    found.  Found with the percents 55, 90 and 70, the records are stored in
    the order 90, 70, 55. *)
Theorem class_results_ranked :
  forall (endpoint : Endpoint) (c : Component),
    schoolCode c <> EmptyString ->
    levelCode c <> EmptyString ->
    examYear c <> EmptyString ->
    let found :=
      results (snd (scan endpoint (schoolCode c) (levelCode c) (examYear c))) in
    let output := classResults (fetchClassResults endpoint c) in
    Permutation found output
    /\ StronglySorted ranked output
    /\ (forall q, with_percent q output = with_percent q found)
    /\ List.map weightedPercent
         (JS.sort by_weightedPercent
            [pupil "A" 55%Q; pupil "B" 90%Q; pupil "C" 70%Q]) =
       [Some 90%Q; Some 70%Q; Some 55%Q].
Proof.
  intros endpoint c Hsc Hlc Hyr found output.
  unfold output. rewrite fetchClassResults_classResults by assumption.
  fold found. split; [apply sort_perm |].
  split; [apply sort_sorted |].
  split; [intros q; apply sort_stable | reflexivity].
Qed.

Lemma class_results_ranked_witness :
  List.map studentNames
    (classResults
       (fetchClassResults class_of_three (form "123456" "olc" "2025"))) =
  [Some "B"; Some "C"; Some "A"]
  /\ StronglySorted ranked
       (classResults
          (fetchClassResults class_of_three (form "123456" "olc" "2025"))).
Proof.
  split; [vm_compute; reflexivity |].
  apply (class_results_ranked class_of_three (form "123456" "olc" "2025"));
    discriminate.
Defined.

(** ** The guard on the form (lines 121-128) *)

(** C7: with the school code, the level code or the exam year left empty,
    the scan does not start: the handler shows the missing-information
    toast and does nothing else, so that no lookup is sent and the stored
    class results stay as they were. *)
Theorem missing_information_rejected :
  forall (endpoint : Endpoint) (c : Component),
    schoolCode c = EmptyString \/ levelCode c = EmptyString
    \/ examYear c = EmptyString ->
    fetchClassResults endpoint c = toast missing_information c
    /\ requests (fetchClassResults endpoint c) = requests c
    /\ classResults (fetchClassResults endpoint c) = classResults c
    /\ toasts (fetchClassResults endpoint c) =
       (toasts c ++ [missing_information])%list.
Proof.
  intros endpoint c Hmissing.
  assert (Hreject : fetchClassResults endpoint c = toast missing_information c).
  { unfold fetchClassResults.
    destruct Hmissing as [H | [H | H]]; rewrite H; cbn [JS.truthy negb orb];
      rewrite ?orb_true_r; reflexivity. }
  rewrite Hreject. repeat split.
Qed.

Lemma missing_information_rejected_witness :
  fetchClassResults crowded (form EmptyString "olc" "2025") =
  toast missing_information (form EmptyString "olc" "2025")
  /\ requests (fetchClassResults crowded (form EmptyString "olc" "2025")) = [].
Proof.
  pose proof (missing_information_rejected crowded
                (form EmptyString "olc" "2025") (or_introl eq_refl))
    as (Hreject & Hrequests & _).
  split; [exact Hreject | exact Hrequests].
Defined.

(** ** The subject columns *)

Lemma filter_comm (p q : string -> bool) (l : list string) :
  List.filter p (List.filter q l) = List.filter q (List.filter p l).
Proof.
  induction l as [| x l IH]; [reflexivity |]. cbn.
  destruct (p x) eqn:Hp, (q x) eqn:Hq; cbn; rewrite ?Hp, ?Hq, IH; reflexivity.
Qed.

Lemma filter_twice (p q : string -> bool) (l : list string) :
  List.filter p (List.filter q l) = List.filter (fun x => q x && p x) l.
Proof.
  induction l as [| x l IH]; [reflexivity |]. cbn.
  destruct (q x); cbn; [destruct (p x) |]; now rewrite IH.
Qed.

Lemma filter_other_dropped (p : string -> bool) (x : string) (l : list string) :
  p x = false ->
  List.filter p (List.filter (fun y => negb (String.eqb y x)) l) =
  List.filter p l.
Proof.
  intros Hpx. induction l as [| y l IH]; [reflexivity |]. cbn.
  destruct (String.eqb_spec y x) as [-> | Hne]; cbn.
  - now rewrite Hpx.
  - now rewrite IH.
Qed.

Lemma first_seen_filter (p : string -> bool) (l : list string) :
  first_seen (List.filter p l) = List.filter p (first_seen l).
Proof.
  induction l as [| x l IH]; [reflexivity |]. cbn.
  destruct (p x) eqn:Hpx; cbn.
  - now rewrite IH, filter_comm.
  - now rewrite IH, filter_other_dropped.
Qed.

Lemma first_seen_In (x : string) (l : list string) :
  List.In x (first_seen l) <-> List.In x l.
Proof.
  induction l as [| y l IH]; [reflexivity |]. cbn.
  rewrite List.filter_In, IH, negb_true_iff, String.eqb_neq.
  destruct (String.eqb_spec x y) as [-> | Hne]; intuition congruence.
Qed.

Lemma first_seen_NoDup (l : list string) : List.NoDup (first_seen l).
Proof.
  induction l as [| x l IH]; cbn; constructor.
  - rewrite List.filter_In, String.eqb_refl. intros [_ H]. discriminate H.
  - now apply List.NoDup_filter.
Qed.

Lemma Set_has_added (set : list string) (x y : string) :
  JS.Set_has (set ++ [x]) y = JS.Set_has set y || String.eqb y x.
Proof.
  unfold JS.Set_has. rewrite List.existsb_app. cbn. now rewrite orb_false_r.
Qed.

(** Adding to a [Set] one by one keeps the first sight of each member. *)
Lemma fold_Set_add (l set : list string) :
  List.fold_left JS.Set_add l set =
  (set ++ first_seen (List.filter (fun x => negb (JS.Set_has set x)) l))%list.
Proof.
  revert set. induction l as [| x l IH]; intros set; cbn [List.fold_left].
  - cbn. now rewrite List.app_nil_r.
  - rewrite IH. unfold JS.Set_add. cbn [List.filter].
    destruct (JS.Set_has set x) eqn:Hhas; cbn [negb]; [reflexivity |].
    cbn [first_seen]. rewrite <- List.app_assoc. cbn [List.app].
    do 2 f_equal. rewrite <- first_seen_filter, filter_twice.
    f_equal. apply List.filter_ext. intros y.
    now rewrite Set_has_added, negb_orb.
Qed.

Lemma fold_add_subject (marks : list Subject) (set : list string) :
  List.fold_left add_subject marks set =
  List.fold_left JS.Set_add (List.filter JS.truthy (mark_names marks)) set.
Proof.
  unfold mark_names. revert set.
  induction marks as [| m marks IH]; intros set; [reflexivity |].
  cbn [List.fold_left List.flat_map]. rewrite IH. unfold add_subject.
  destruct (subjectName m) as [name |]; [| reflexivity].
  cbn [List.app List.filter].
  destruct (JS.truthy name); reflexivity.
Qed.

Lemma fold_add_student (rs : list StudentResult) (set : list string) :
  List.fold_left add_student rs set =
  List.fold_left JS.Set_add (List.filter JS.truthy (all_subject_names rs)) set.
Proof.
  revert set. induction rs as [| st rs IH]; intros set; [reflexivity |].
  cbn [List.fold_left]. rewrite IH. unfold all_subject_names.
  cbn [List.flat_map]. rewrite List.filter_app, List.fold_left_app.
  f_equal. unfold add_student, subject_names.
  destruct (rawMark st) as [marks |]; [| reflexivity].
  apply fold_add_subject.
Qed.

(** The columns in closed form. *)
Lemma classSubjects_first_seen (rs : list StudentResult) :
  classSubjects rs = first_seen (List.filter JS.truthy (all_subject_names rs)).
Proof.
  unfold classSubjects. destruct rs as [| st rs]; [reflexivity |].
  cbn [List.length Nat.eqb]. rewrite fold_add_student, fold_Set_add.
  cbn [List.app]. f_equal.
  rewrite (List.filter_ext _ (fun _ => true)); [apply List.filter_true |].
  reflexivity.
Qed.

Lemma find_first {A : Type} (p : A -> bool) (l : list A) (x : A) :
  JS.find p l = Some x ->
  exists before after,
    l = (before ++ x :: after)%list /\ p x = true
    /\ forall y, List.In y before -> p y = false.
Proof.
  unfold JS.find. induction l as [| y l IH]; [discriminate |]. cbn.
  destruct (p y) eqn:Hpy.
  - intros [= ->]. exists [], l. repeat split; [exact Hpy |]. intros y [].
  - intros Hfind. destruct (IH Hfind) as (before & after & -> & Hpx & Hbefore).
    exists (y :: before), after. repeat split; [exact Hpx |].
    intros z [<- | Hz]; [exact Hpy | now apply Hbefore].
Qed.

Lemma names_subject (m : Subject) (subject : string) :
  match subjectName m with
  | Some name => String.eqb name subject
  | None => false
  end = true <-> subjectName m = Some subject.
Proof.
  destruct (subjectName m) as [name |]; [| split; discriminate].
  rewrite String.eqb_eq. split; congruence.
Qed.

(** C8, as the specification states it, fails on a record with a mark whose
    subject name is the empty string: that name is in the union of the
    subject names and is no column. *)
Lemma class_subjects_counterexample :
  classSubjects [student_with_unnamed_subject] = ["Math"]
  /\ union_of_subject_names [student_with_unnamed_subject] =
     ["Math"; EmptyString]
  /\ classSubjects [student_with_unnamed_subject] <>
     union_of_subject_names [student_with_unnamed_subject].
Proof. repeat split. discriminate. Qed.

(** C8, amended: the columns are the non-empty subject names of all the
    records, each once, in the order first seen; a mark whose subject name
    is absent or empty gives no column.  The cell of a student under a
    subject is the first of the student's marks that has that subject name,
    and the export prints "-" when there is none.  For student A with Math
    and Physics and student B with Math and Chemistry the columns are Math,
    Physics, Chemistry, and A has no mark under Chemistry. *)
Theorem class_subjects_join :
  forall (rs : list StudentResult),
    classSubjects rs = first_seen (List.filter JS.truthy (all_subject_names rs))
    /\ List.NoDup (classSubjects rs)
    /\ (forall name,
          List.In name (classSubjects rs) <->
          name <> EmptyString /\ List.In name (all_subject_names rs))
    /\ (forall st subject,
          (forall m, markObj st subject = Some m ->
             exists before after,
               rawMark st = Some (before ++ m :: after)%list
               /\ subjectName m = Some subject
               /\ forall x, List.In x before -> subjectName x <> Some subject)
          /\ (markObj st subject = None <->
              ~ List.In subject (subject_names st))
          /\ (markObj st subject = None ->
              forall Number_toString,
                mark_cell Number_toString st subject = "-"))
    /\ classSubjects [student_A; student_B] = ["Math"; "Physics"; "Chemistry"]
    /\ markObj student_A "Chemistry" = None.
Proof.
  intros rs. rewrite classSubjects_first_seen.
  split; [reflexivity |]. split; [apply first_seen_NoDup |].
  split; [| split; [| split; reflexivity]].
  - intros name. rewrite first_seen_In, List.filter_In.
    destruct name; cbn; intuition congruence.
  - intros st subject. split; [| split].
    + intros m Hfind. unfold markObj in Hfind.
      destruct (rawMark st) as [marks |]; [| discriminate].
      destruct (find_first _ _ _ Hfind) as (before & after & -> & Hm & Hbefore).
      exists before, after. split; [reflexivity |].
      split; [now apply names_subject |].
      intros x Hx Hname. apply names_subject in Hname.
      rewrite (Hbefore x Hx) in Hname. discriminate Hname.
    + unfold markObj, subject_names, mark_names, JS.find.
      destruct (rawMark st) as [marks |]; cbn [JS.nullish].
      * rewrite List.in_flat_map. split.
        -- intros Hnone (m & Hin & Hname).
           pose proof (List.find_none _ _ Hnone m Hin) as Hm. cbn in Hm.
           destruct (subjectName m) as [name |]; [| contradiction].
           destruct Hname as [-> | []]. now rewrite String.eqb_refl in Hm.
        -- intros Hnot.
           destruct (List.find _ marks) as [m |] eqn:Hfind; [| reflexivity].
           exfalso. apply Hnot. apply List.find_some in Hfind as [Hin Hm].
           exists m. split; [exact Hin |]. apply names_subject in Hm.
           rewrite Hm. now left.
      * split; [intros _ [] | reflexivity].
    + intros Hnone Number_toString. unfold mark_cell. now rewrite Hnone.
Qed.

(** ** The export *)




(** * Further properties *)

(** ** The identifiers of a scan *)

Lemma string_of_zeros (k : nat) (d : Decimal.uint) :
  Nat.iter k (String "0") (NilEmpty.string_of_uint d) =
  NilEmpty.string_of_uint (Nat.iter k Decimal.D0 d).
Proof.
  induction k as [| k IH]; [reflexivity |].
  rewrite !Nat.iter_succ, IH. reflexivity.
Qed.

Lemma sequence_of_zero_padded (width n : nat) :
  sequence_of (zero_padded width n) = Some n.
Proof.
  unfold sequence_of, zero_padded, JS.String_of_nat. cbv zeta.
  rewrite string_of_zeros, NilEmpty.usu. cbn [option_map]. f_equal.
  rewrite <- DecimalNat.Unsigned.of_uint_norm, DecimalFacts.unorm_iter_D0,
    DecimalNat.Unsigned.of_uint_norm.
  apply DecimalNat.Unsigned.of_to.
Qed.

Lemma length_append (s t : string) :
  String.length (s ++ t) = String.length s + String.length t.
Proof. induction s as [| c s IH]; cbn; [reflexivity | now rewrite IH]. Qed.

Lemma append_inv_head (s t u : string) : s ++ t = s ++ u -> t = u.
Proof.
  induction s as [| c s IH]; cbn; [trivial |].
  intros [= H]. now apply IH.
Qed.

Lemma append_inv_tail (s t u : string) : s ++ u = t ++ u -> s = t.
Proof.
  revert t. induction s as [| c s IH]; intros [| d t] H; cbn in H.
  - reflexivity.
  - apply (f_equal String.length) in H. cbn in H.
    rewrite length_append in H. lia.
  - apply (f_equal String.length) in H. cbn in H.
    rewrite length_append in H. lia.
  - injection H as -> H. f_equal. now apply IH.
Qed.

Lemma synthesize_injective (sc lc yr : string) (a b : nat) :
  synthesize sc lc yr a = synthesize sc lc yr b -> a = b.
Proof.
  unfold synthesize. cbv zeta. rewrite !padStart_zero_padded. intros H.
  apply append_inv_head, append_inv_head in H.
  apply append_inv_tail in H.
  apply (f_equal sequence_of) in H.
  rewrite !sequence_of_zero_padded in H. now injection H.
Qed.

(** Where a scan ends: at most 1000 probes on, in the first state that
    fails the test of the loop. *)
Lemma scan_end (ep : Endpoint) (sc lc yr : string) :
  exists n,
    n <= 1000
    /\ scan ep sc lc yr = (None, trajectory ep sc lc yr n)
    /\ guard (trajectory ep sc lc yr n) = false
    /\ forall k, k < n -> guard (trajectory ep sc lc yr k) = true.
Proof.
  destruct (while_loop_stops ep sc lc yr scan_start)
    as (n & Hloop & Hstop & Hrun).
  exists n. split; [| now repeat split].
  destruct n as [| n]; [lia |].
  specialize (Hrun n (Nat.lt_succ_diag_r n)).
  apply guard_true in Hrun as [_ Hle]. rewrite run_seq in Hle.
  unfold MAX_STUDENTS, scan_start in Hle. cbn [seq] in Hle. lia.
Qed.

Lemma trajectory_seq (ep : Endpoint) (sc lc yr : string) (k : nat) :
  seq (trajectory ep sc lc yr k) = S k.
Proof. unfold trajectory. rewrite run_seq. cbn. lia. Qed.

Lemma trajectory_sent (ep : Endpoint) (sc lc yr : string) (k : nat) :
  sent (trajectory ep sc lc yr k) = identifiers sc lc yr 1 k.
Proof. unfold trajectory. now rewrite run_sent. Qed.

(** X1: a scan looks up the identifiers of the sequence numbers 1, 2, ...,
    n in that order, with none left out, for some n from 20 to 1000, and
    leaves the sequence counter at n + 1. *)
Theorem scan_probes_in_order :
  forall (endpoint : Endpoint) (school level year : string),
    let final := snd (scan endpoint school level year) in
    exists n,
      20 <= n <= 1000
      /\ sent final = identifiers school level year 1 n
      /\ List.length (sent final) = n
      /\ seq final = S n.
Proof.
  intros endpoint school level year final.
  destruct (scan_end endpoint school level year)
    as (n & Hn & Hscan & Hstop & _).
  exists n. unfold final. rewrite Hscan. cbn [snd].
  rewrite trajectory_sent, trajectory_seq.
  split; [| split; [reflexivity | split; [| reflexivity]]].
  - split; [| exact Hn].
    destruct (emptyCount_streak endpoint school level year n) as [Hle _].
    apply not_true_iff_false in Hstop. rewrite guard_true in Hstop.
    rewrite trajectory_seq in Hstop.
    unfold MAX_CONSECUTIVE_EMPTY, MAX_STUDENTS in Hstop. lia.
  - unfold identifiers. now rewrite List.length_map, List.length_seq.
Qed.

(** X2: the identifier determines the sequence number, whatever the school
    code, the level code and the year, so that a scan never looks up the
    same identifier twice. *)
Theorem scan_never_repeats :
  forall (endpoint : Endpoint) (school level year : string),
    (forall a b,
       synthesize school level year a = synthesize school level year b ->
       a = b)
    /\ List.NoDup (sent (snd (scan endpoint school level year))).
Proof.
  intros endpoint school level year.
  split; [apply synthesize_injective |].
  destruct (scan_end endpoint school level year) as (n & _ & Hscan & _).
  rewrite Hscan. cbn [snd]. rewrite trajectory_sent. unfold identifiers.
  apply Finite.Injective_map_NoDup_in; [| apply List.seq_NoDup].
  intros a b _ _. apply synthesize_injective.
Qed.

(** X3: a scan that stops before its 1000th lookup has just met 20 empty
    probes in a row: the empty counter is at 20 and the last 20 sequence
    numbers probed were all empty. *)
Theorem early_stop_after_empty_streak :
  forall (endpoint : Endpoint) (school level year : string),
    let final := snd (scan endpoint school level year) in
    let n := List.length (sent final) in
    n < 1000 ->
    emptyCount final = 20
    /\ forall j, n - 20 < j <= n ->
                 classify (answer endpoint school level year j) = Empty.
Proof.
  intros endpoint school level year final n Hn.
  destruct (scan_end endpoint school level year)
    as (m & Hm & Hscan & Hstop & Hrun).
  assert (Hlen : n = m).
  { unfold n, final. rewrite Hscan. cbn [snd]. rewrite trajectory_sent.
    unfold identifiers. now rewrite List.length_map, List.length_seq. }
  subst m. unfold final. rewrite Hscan. cbn [snd].
  destruct (emptyCount_streak endpoint school level year n) as [Hle Hstreak].
  assert (Hcount : emptyCount (trajectory endpoint school level year n) = 20).
  { apply not_true_iff_false in Hstop. rewrite guard_true in Hstop.
    rewrite trajectory_seq in Hstop.
    assert (Hupper : emptyCount (trajectory endpoint school level year n)
                     <= 20).
    { destruct (Nat.eq_dec n 0) as [Hzero | Hpos]; [lia |].
      pose proof (Hrun (n - 1) ltac:(lia)) as Hprev.
      apply guard_true in Hprev as [Hprev _].
      pose proof (advance_emptyCount endpoint school level year
                    (trajectory endpoint school level year (n - 1))) as Hadv.
      replace n with (S (n - 1)) at 1 by lia.
      unfold MAX_CONSECUTIVE_EMPTY in Hprev.
      unfold trajectory in *. rewrite run_succ. lia. }
    unfold MAX_CONSECUTIVE_EMPTY, MAX_STUDENTS in Hstop. lia. }
  split; [exact Hcount |].
  intros j Hj. apply Hstreak. rewrite Hcount. exact Hj.
Qed.

Lemma early_stop_after_empty_streak_witness :
  emptyCount (snd (scan class_of_five "123456" "olc" "2025")) = 20
  /\ classify (answer class_of_five "123456" "olc" "2025" 25) = Empty.
Proof.
  destruct (early_stop_after_empty_streak class_of_five "123456" "olc" "2025")
    as [Hcount Hlast].
  - vm_compute. repeat constructor.
  - split; [exact Hcount |]. apply Hlast. vm_compute.
    split; repeat constructor.
Defined.

(** ** What a class scan leaves behind *)

Lemma scan_results_named (ep : Endpoint) (sc lc yr : string) :
  List.Forall named (results (snd (scan ep sc lc yr))).
Proof.
  destruct (scan_on_trajectory ep sc lc yr) as (n & Hscan & _).
  rewrite Hscan. cbn [snd]. unfold trajectory. rewrite run_results.
  apply found_records_named.
Qed.

(** The component after a scan that starts, cell by cell. *)
Lemma fetchClassResults_started (ep : Endpoint) (c : Component) :
  schoolCode c <> EmptyString ->
  levelCode c <> EmptyString ->
  examYear c <> EmptyString ->
  let s := snd (scan ep (schoolCode c) (levelCode c) (examYear c)) in
  let stored := JS.sort by_weightedPercent (results s) in
  fetchClassResults ep c =
  match stored with
  | first :: _ =>
      mkComponent (schoolCode c) (levelCode c) (examYear c) false stored
        (JS.nullish (attendedSchool first) EmptyString) true
        (toasts c ++ [class_results_retrieved (List.length stored)])
        (requests c ++ sent s)
  | [] =>
      mkComponent (schoolCode c) (levelCode c) (examYear c) false []
        EmptyString (isClassModalOpen c) (toasts c ++ [no_results_found])
        (requests c ++ sent s)
  end.
Proof.
  intros Hsc Hlc Hyr. cbv zeta. unfold fetchClassResults.
  rewrite !truthy_nonempty by assumption.
  cbn [negb orb schoolCode levelCode examYear setClassLoading setClassResults
       setClassSchoolName].
  destruct (scan_on_trajectory ep (schoolCode c) (levelCode c) (examYear c))
    as (n & Hscan & _).
  rewrite Hscan. cbn [snd].
  destruct (JS.sort by_weightedPercent _) as [| first rest]; reflexivity.
Qed.

(** X4: a class scan that starts always comes to one of two ends, and never
    to the error toast.  Either nothing is stored, the one toast added says
    that no results were found, the school name is blank, the modal is left
    as it was and the empty-state card shows; or the first stored record is
    ranked at least as high as every other, the one toast added counts the
    stored records, the school name is the attended school of that first
    record, and the modal is open.  In both the loading flag is off again
    and the three fields of the form are as they were. *)
Theorem class_scan_outcome :
  forall (endpoint : Endpoint) (c : Component),
    schoolCode c <> EmptyString ->
    levelCode c <> EmptyString ->
    examYear c <> EmptyString ->
    let c' := fetchClassResults endpoint c in
    classLoading c' = false
    /\ (schoolCode c', levelCode c', examYear c') =
       (schoolCode c, levelCode c, examYear c)
    /\ ((classResults c' = []
         /\ toasts c' = (toasts c ++ [no_results_found])%list
         /\ classSchoolName c' = EmptyString
         /\ isClassModalOpen c' = isClassModalOpen c
         /\ empty_state CLASS c' = true)
        \/ (exists first rest,
              classResults c' = first :: rest
              /\ List.Forall (ranked first) rest
              /\ toasts c' =
                 (toasts c
                  ++ [class_results_retrieved (S (List.length rest))])%list
              /\ classSchoolName c' =
                 JS.nullish (attendedSchool first) EmptyString
              /\ isClassModalOpen c' = true
              /\ empty_state CLASS c' = false)).
Proof.
  intros endpoint c Hsc Hlc Hyr c'. unfold c'.
  rewrite (fetchClassResults_started endpoint c Hsc Hlc Hyr). cbv zeta.
  pose proof (sort_sorted
                (results (snd (scan endpoint (schoolCode c) (levelCode c)
                                 (examYear c))))) as Hsorted.
  destruct (JS.sort by_weightedPercent _) as [| first rest].
  - split; [reflexivity |]. split; [reflexivity |]. left. now repeat split.
  - split; [reflexivity |]. split; [reflexivity |]. right.
    exists first, rest. inversion Hsorted; subst. now repeat split.
Qed.

Lemma class_scan_outcome_witness :
  classLoading (fetchClassResults class_of_three (form "123456" "olc" "2025"))
  = false.
Proof.
  apply (class_scan_outcome class_of_three (form "123456" "olc" "2025"));
    discriminate.
Defined.

(** X5: the handlers of the class tab keep every stored record named: when
    each record in [classResults] has a non-empty name before a scan, each
    has one after it, whether the scan starts or is refused; and the export
    leaves [classResults] as it is.  The name cell of the table, which reads
    the length of the name, thus always finds one. *)
Theorem stored_results_stay_named :
  forall (endpoint : Endpoint) (Number_toString : number -> string)
         (c : Component),
    List.Forall named (classResults c) ->
    List.Forall named (classResults (fetchClassResults endpoint c))
    /\ classResults (fst (exportClassResultsCSV Number_toString c)) =
       classResults c.
Proof.
  intros endpoint Number_toString c Hnamed. split.
  - destruct (string_dec (schoolCode c) EmptyString) as [Hsc | Hsc];
      [| destruct (string_dec (levelCode c) EmptyString) as [Hlc | Hlc];
         [| destruct (string_dec (examYear c) EmptyString) as [Hyr | Hyr]]].
    4: { rewrite fetchClassResults_classResults by assumption.
         eapply Permutation_Forall; [apply sort_perm |].
         apply scan_results_named. }
    all: unfold fetchClassResults;
      rewrite ?Hsc, ?Hlc, ?Hyr; cbn [JS.truthy negb orb];
      rewrite ?orb_true_r; exact Hnamed.
  - unfold exportClassResultsCSV.
    destruct (Nat.eqb (List.length (classResults c)) 0); reflexivity.
Qed.

Lemma stored_results_stay_named_witness :
  List.Forall named
    (classResults
       (fetchClassResults class_of_three (form "123456" "olc" "2025"))).
Proof.
  apply (stored_results_stay_named class_of_three print_whole
           (form "123456" "olc" "2025")).
  constructor.
Defined.

(** ** The export and the table *)

Lemma csv_row_cells (Number_toString : number -> string)
  (columns : list string) (student : StudentResult) :
  csv_row Number_toString columns student =
  ([studentIndexNumber student;
    JS.interpolate (studentNames student);
    percent_cell Number_toString (weightedPercent student);
    division student;
    JS.or_else (placedSchoolName student) "-";
    JS.or_else (placedCombinationName student) "-"]
   ++ List.map (mark_cell Number_toString student) columns)%list.
Proof.
  unfold csv_row. generalize
    [studentIndexNumber student; JS.interpolate (studentNames student);
     percent_cell Number_toString (weightedPercent student); division student;
     JS.or_else (placedSchoolName student) "-";
     JS.or_else (placedCombinationName student) "-"].
  induction columns as [| subject columns IH]; intros row; cbn.
  - now rewrite List.app_nil_r.
  - now rewrite IH, <- List.app_assoc.
Qed.

(** X6: the table the export writes is rectangular and its cells stand
    under their headers: there is one row for the headers and one for each
    student, every row has six cells and one more for each subject column,
    and the cell of a student under the k-th subject header is the mark cell
    of that student for that subject. *)
Theorem export_table_aligned :
  forall (Number_toString : number -> string) (rs : list StudentResult),
    let columns := classSubjects rs in
    let headers := csv_headers columns in
    let rows := List.map (csv_row Number_toString columns) rs in
    List.length (headers :: rows) = S (List.length rs)
    /\ List.Forall
         (fun row => List.length row = 6 + List.length columns)
         (headers :: rows)
    /\ List.skipn 6 headers = columns
    /\ List.Forall
         (fun student =>
            List.skipn 6 (csv_row Number_toString columns student) =
            List.map (mark_cell Number_toString student) columns)
         rs.
Proof.
  intros Number_toString rs columns headers rows.
  split; [cbn; unfold rows; now rewrite List.length_map |].
  split; [| split; [reflexivity |]].
  - constructor.
    + unfold headers, csv_headers. rewrite List.length_app. reflexivity.
    + unfold rows. apply List.Forall_map, List.Forall_forall.
      intros student _. rewrite csv_row_cells, List.length_app.
      now rewrite List.length_map.
  - apply List.Forall_forall. intros student _.
    now rewrite csv_row_cells.
Qed.

Lemma markObj_none (st : StudentResult) (subject : string) :
  markObj st subject = None <-> ~ List.In subject (subject_names st).
Proof.
  unfold markObj, subject_names, mark_names, JS.find.
  destruct (rawMark st) as [marks |]; cbn [JS.nullish].
  - rewrite List.in_flat_map. split.
    + intros Hnone (m & Hin & Hname).
      pose proof (List.find_none _ _ Hnone m Hin) as Hm. cbn in Hm.
      destruct (subjectName m) as [name |]; [| contradiction].
      destruct Hname as [-> | []]. now rewrite String.eqb_refl in Hm.
    + intros Hnot.
      destruct (List.find _ marks) as [m |] eqn:Hfind; [| reflexivity].
      exfalso. apply Hnot. apply List.find_some in Hfind as [Hin Hm].
      exists m. split; [exact Hin |]. apply names_subject in Hm.
      rewrite Hm. now left.
  - split; [intros _ [] | reflexivity].
Qed.

(** X7: a dash in a subject cell of the export means that the student has
    no mark under that subject, and nothing else: the cell is "-" exactly
    when none of the student's marks has that subject name. *)
Theorem dash_means_no_mark :
  forall (Number_toString : number -> string) (student : StudentResult)
         (subject : string),
    mark_cell Number_toString student subject = "-" <->
    ~ List.In subject (subject_names student).
Proof.
  intros Number_toString student subject. rewrite <- markObj_none.
  unfold mark_cell. destruct (markObj student subject) as [m |].
  - split; [| discriminate]. intros Hcell.
    apply (f_equal String.length) in Hcell.
    rewrite !length_append in Hcell. cbn in Hcell. lia.
  - split; reflexivity.
Qed.

(** X8: no subject column is empty: under every subject header at least one
    of the students has a mark, so that at least one cell of the column is
    not a dash. *)
Theorem no_empty_column :
  forall (Number_toString : number -> string) (rs : list StudentResult)
         (subject : string),
    List.In subject (classSubjects rs) ->
    exists student,
      List.In student rs
      /\ markObj student subject <> None
      /\ mark_cell Number_toString student subject <> "-".
Proof.
  intros Number_toString rs subject Hcolumn.
  rewrite classSubjects_first_seen, first_seen_In, List.filter_In in Hcolumn.
  destruct Hcolumn as [Hin _]. unfold all_subject_names in Hin.
  apply List.in_flat_map in Hin as (student & Hstudent & Hname).
  exists student. split; [exact Hstudent |].
  assert (Hmark : markObj student subject <> None).
  { intros Hnone. now apply markObj_none in Hnone. }
  split; [exact Hmark |].
  unfold mark_cell. destruct (markObj student subject) as [m |];
    [| contradiction].
  intros Hcell. apply (f_equal String.length) in Hcell.
  rewrite !length_append in Hcell. cbn in Hcell. lia.
Qed.

Lemma no_empty_column_witness :
  exists student,
    List.In student [student_A; student_B]
    /\ markObj student "Chemistry" <> None
    /\ mark_cell print_whole student "Chemistry" <> "-".
Proof.
  apply (no_empty_column print_whole [student_A; student_B] "Chemistry").
  vm_compute. auto.
Defined.

(** X9: students added at the end only add columns at the end: the columns
    of a longer list of results are the columns of its first part followed
    by those of the rest that are new. *)
Theorem columns_only_grow :
  forall (rs more : list StudentResult),
    classSubjects (rs ++ more) =
    (classSubjects rs
     ++ List.filter
          (fun subject => negb (JS.Set_has (classSubjects rs) subject))
          (classSubjects more))%list.
Proof.
  intros rs more. rewrite !classSubjects_first_seen.
  unfold all_subject_names. rewrite List.flat_map_app, List.filter_app.
  generalize (List.filter JS.truthy (List.flat_map subject_names rs)) as l.
  generalize (List.filter JS.truthy (List.flat_map subject_names more)) as l'.
  intros l' l.
  pose proof (fold_Set_add (l ++ l') []) as Hall.
  rewrite List.fold_left_app, (fold_Set_add l []), fold_Set_add in Hall.
  cbn [List.app JS.Set_has List.existsb negb] in Hall.
  rewrite !List.filter_true in Hall.
  rewrite <- Hall. f_equal.
  exact (first_seen_filter
           (fun subject => negb (JS.Set_has (first_seen l) subject)) l').
Qed.

(** X10: the export agrees with the table on every subject cell: where the
    table shows a dash the export writes "-", and where the table shows a
    mark with a grade badge the export writes that mark and, in brackets,
    that grade; the badge is coloured by that grade. *)
Theorem export_matches_table :
  forall (Number_toString : number -> string) (student : StudentResult)
         (subject : string),
    match table_cell Number_toString student subject with
    | Some cell =>
        mark_cell Number_toString student subject =
        mark_text cell ++ " (" ++ badge_grade cell ++ ")"
        /\ badge_class cell =
           getGradeColor (badge_grade cell) ++ " text-xs px-1 py-0"
    | None => mark_cell Number_toString student subject = "-"
    end.
Proof.
  intros Number_toString student subject. unfold table_cell, mark_cell.
  destruct (markObj student subject) as [m |]; [| reflexivity].
  cbn [mark_text badge_grade badge_class]. now split.
Qed.

(** ** Grade colours *)

(** X11: a grade gets the muted colours exactly when it is none of A, S, D,
    C and F, and these five get five different colours. *)
Theorem grade_colours :
  forall (grade : string),
    (getGradeColor grade = "bg-muted text-muted-foreground" <->
     ~ List.In grade ["A"; "S"; "D"; "C"; "F"])
    /\ List.NoDup (List.map getGradeColor ["A"; "S"; "D"; "C"; "F"]).
Proof.
  intros grade. split.
  - unfold getGradeColor.
    destruct (String.eqb_spec grade "A") as [-> | HA];
      [split; [discriminate | intros H; exfalso; apply H; cbn; auto] |].
    destruct (String.eqb_spec grade "S") as [-> | HS];
      [split; [discriminate | intros H; exfalso; apply H; cbn; auto] |].
    destruct (String.eqb_spec grade "D") as [-> | HD];
      [split; [discriminate | intros H; exfalso; apply H; cbn; auto] |].
    destruct (String.eqb_spec grade "C") as [-> | HC];
      [split; [discriminate | intros H; exfalso; apply H; cbn; auto] |].
    destruct (String.eqb_spec grade "F") as [-> | HF];
      [split; [discriminate | intros H; exfalso; apply H; cbn; auto 6] |].
    split; [| reflexivity]. intros _ Hin. cbn in Hin.
    intuition congruence.
  - cbn. repeat constructor; cbn; intuition discriminate.
Qed.

(** ** The individual lookup *)

(** X12: without an index number, or on the advanced tab without a national
    identity number, the individual lookup is refused: it shows the
    missing-information toast and does nothing else, so that no request is
    sent, the result kept from before stays and the loading flag is not
    touched. *)
Theorem lookup_refused :
  forall (service : Service) (now : N) (random : string) (c : Individual),
    indexNumber c = EmptyString
    \/ (activeTab c = ADVANCED /\ nationalId c = EmptyString) ->
    getResults service now random c = show missing_fields c
    /\ fetched (getResults service now random c) = fetched c
    /\ result (getResults service now random c) = result c
    /\ loading (getResults service now random c) = loading c.
Proof.
  intros service now random c Hmissing.
  assert (Hrefused : getResults service now random c = show missing_fields c).
  { unfold getResults. destruct Hmissing as [H | [Htab H]].
    - rewrite H. reflexivity.
    - rewrite Htab, H. cbn [is_advanced JS.truthy negb andb].
      now rewrite orb_true_r. }
  rewrite Hrefused. repeat split.
Qed.

Lemma lookup_refused_witness :
  fetched
    (getResults one_pupil 0%N "0.5" (lookup_form ADVANCED "123" EmptyString))
  = [].
Proof.
  apply (lookup_refused one_pupil 0%N "0.5"
           (lookup_form ADVANCED "123" EmptyString)).
  right. split; reflexivity.
Defined.

Lemma getResults_started (service : Service) (now : N) (random : string)
  (c : Individual) :
  indexNumber c <> EmptyString ->
  (activeTab c = ADVANCED -> nationalId c <> EmptyString) ->
  getResults service now random c =
  let url := apiUrl c now random in
  match decoded (service url) with
  | inr (JObject r) =>
      if has_name (JObject r) then
        mkIndividual (activeTab c) (indexNumber c) (nationalId c) false
          (Some r) true (shown c ++ [results_retrieved]) (fetched c ++ [url])
      else
        mkIndividual (activeTab c) (indexNumber c) (nationalId c) false
          None (isModalOpen c) (shown c ++ [no_result_found])
          (fetched c ++ [url])
  | inr JOther =>
      mkIndividual (activeTab c) (indexNumber c) (nationalId c) false
        None (isModalOpen c) (shown c ++ [no_result_found])
        (fetched c ++ [url])
  | inl err =>
      mkIndividual (activeTab c) (indexNumber c) (nationalId c) false
        None (isModalOpen c) (shown c ++ [lookup_error err])
        (fetched c ++ [url])
  end.
Proof.
  intros Hindex Hid. unfold getResults.
  rewrite (truthy_nonempty _ Hindex).
  assert (Hcheck : is_advanced (activeTab c) && negb (JS.truthy (nationalId c))
                   = false).
  { destruct (activeTab c) eqn:Htab; try reflexivity.
    cbn [is_advanced andb]. now rewrite truthy_nonempty by now apply Hid. }
  rewrite Hcheck. cbn [negb orb]. cbv zeta.
  replace (apiUrl (setResult None (setLoading true c)) now random)
    with (apiUrl c now random) by reflexivity.
  destruct (decoded (service (apiUrl c now random))) as [err | [r |]];
    try reflexivity.
  destruct (has_name (JObject r)); reflexivity.
Qed.

(** X13: an individual lookup that is not refused sends exactly one request,
    to the URL of the active tab, and ends with the loading flag off.  It
    keeps a record and opens the modal exactly on the answers the class scan
    counts as found; on every other answer the result is cleared and the
    modal left as it was.  Unlike the scan it tells failures apart: a
    rejected fetch, a status that is not a success and a body that does not
    decode show the error toast, a decoded body without a name the
    not-found toast. *)
Theorem lookup_outcome :
  forall (service : Service) (now : N) (random : string) (c : Individual),
    indexNumber c <> EmptyString ->
    (activeTab c = ADVANCED -> nationalId c <> EmptyString) ->
    let url := apiUrl c now random in
    let c' := getResults service now random c in
    fetched c' = (fetched c ++ [url])%list
    /\ loading c' = false
    /\ match classify (service url) with
       | Found r =>
           result c' = Some r
           /\ isModalOpen c' = true
           /\ shown c' = (shown c ++ [results_retrieved])%list
       | Empty =>
           result c' = None
           /\ isModalOpen c' = isModalOpen c
           /\ shown c' =
              (shown c ++
               [match service url with
                | inl err => lookup_error err
                | inr res =>
                    if ok res then
                      match json res with
                      | inl err => lookup_error err
                      | inr _ => no_result_found
                      end
                    else lookup_error (Error "Failed to fetch results")
                end])%list
       end.
Proof.
  intros service now random c Hindex Hid url c'. unfold c'.
  rewrite getResults_started by assumption. cbv zeta. fold url.
  unfold decoded, classify.
  destruct (service url) as [err | [[] [err | [r |]]]];
    cbn [ok json negb]; try (repeat split; reflexivity).
  unfold has_name.
  destruct (studentNames r) as [[| ch name] |]; cbn [JS.truthy];
    repeat split; reflexivity.
Qed.

Lemma lookup_outcome_witness :
  result
    (getResults one_pupil 0%N "0.5" (lookup_form ORDINARY "123" EmptyString))
  = Some (pupil "A" 80%Q).
Proof.
  pose proof (lookup_outcome one_pupil 0%N "0.5"
                (lookup_form ORDINARY "123" EmptyString))
    as Houtcome.
  cbv zeta in Houtcome.
  destruct Houtcome as (_ & _ & Hfound & _); [discriminate.. |].
  exact Hfound.
Defined.

(** X14: on the ordinary tab the national identity number plays no part:
    typing one before the lookup changes nothing in what the lookup does,
    not the request sent, not the result, not the toast. *)
Theorem ordinary_lookup_ignores_national_id :
  forall (service : Service) (now : N) (random : string) (c : Individual)
         (id : string),
    activeTab c = ORDINARY ->
    getResults service now random (setNationalId id c) =
    setNationalId id (getResults service now random c).
Proof.
  intros service now random c id Htab.
  destruct c as [tab index nid ld res open sh fe]. cbn in Htab. subst tab.
  unfold getResults, setNationalId.
  cbn [activeTab indexNumber nationalId is_advanced andb].
  rewrite !orb_false_r.
  destruct (JS.truthy index); cbn [negb]; [| reflexivity].
  cbv zeta. unfold apiUrl, setResult, setLoading, request.
  cbn [activeTab indexNumber nationalId loading result isModalOpen shown
       fetched].
  destruct (decoded _) as [err | [r |]]; try reflexivity.
  destruct (has_name (JObject r)); reflexivity.
Qed.

Lemma ordinary_lookup_ignores_national_id_witness :
  getResults one_pupil 0%N "0.5"
    (setNationalId "1199" (lookup_form ORDINARY "123" EmptyString)) =
  setNationalId "1199"
    (getResults one_pupil 0%N "0.5" (lookup_form ORDINARY "123" EmptyString)).
Proof.
  apply (ordinary_lookup_ignores_national_id one_pupil 0%N "0.5"
           (lookup_form ORDINARY "123" EmptyString) "1199").
  reflexivity.
Defined.

(** ** The labels of the table *)

Lemma substring_head_length (n : nat) (s : string) :
  n <= String.length s -> String.length (String.substring 0 n s) = n.
Proof.
  revert s. induction n as [| n IH]; intros [| c s] Hn; cbn in *;
    try reflexivity; try lia.
  now rewrite IH by lia.
Qed.

Lemma substring_head_append (n : nat) (s t : string) :
  n <= String.length s ->
  String.substring 0 n (String.substring 0 n s ++ t) = String.substring 0 n s.
Proof.
  revert s. induction n as [| n IH]; intros [| c s] Hn; cbn in *;
    try lia; try (now destruct t).
  now rewrite IH by lia.
Qed.

(** X15: a label of the table is never longer than its limit and the three
    dots, begins as the full text does up to the limit, and is the full
    text when that fits.  A subject header is cut at 10 characters, and the
    cell of the placed school or combination is the cell of the export cut
    at 15. *)
Theorem labels_are_cut :
  forall (limit : nat) (s : string) (placed : option string),
    String.length (ellipsis limit s) <= limit + 3
    /\ String.substring 0 limit (ellipsis limit s) =
       String.substring 0 limit s
    /\ (String.length s <= limit -> ellipsis limit s = s)
    /\ String.length (subject_label s) <= 13
    /\ placed_label placed = ellipsis 15 (JS.or_else placed "-").
Proof.
  intros limit s placed.
  assert (Hcut : String.length (ellipsis limit s) <= limit + 3
                 /\ String.substring 0 limit (ellipsis limit s) =
                    String.substring 0 limit s).
  { unfold ellipsis. destruct (Nat.ltb_spec limit (String.length s)).
    - rewrite length_append, substring_head_length by lia. cbn.
      split; [lia |]. apply substring_head_append. lia.
    - split; [lia | reflexivity]. }
  split; [apply Hcut |]. split; [apply Hcut |]. split; [| split].
  - intros Hfits. unfold ellipsis.
    destruct (Nat.ltb_spec limit (String.length s)); [lia | reflexivity].
  - unfold subject_label, ellipsis.
    destruct (Nat.ltb_spec 10 (String.length s)).
    + rewrite length_append, substring_head_length by lia. cbn. lia.
    + lia.
  - unfold placed_label, JS.or_else.
    destruct placed as [[| ch name] |]; reflexivity.
Qed.

(** ** The width of an identifier *)




(** ** Ranking again *)

(** X17: ranking a list that is already in rank order leaves it as it is,
    ties included; so the list a scan stores is not changed by being ranked
    once more. *)
Theorem ranking_is_idempotent :
  forall (l : list StudentResult),
    StronglySorted ranked l ->
    JS.sort by_weightedPercent l = l
    /\ JS.sort by_weightedPercent (JS.sort by_weightedPercent l) = l.
Proof.
  intros l Hsorted.
  assert (Hfixed : JS.sort by_weightedPercent l = l).
  { induction Hsorted as [| x l Hsorted IH Hhead]; [reflexivity |].
    cbn [JS.sort]. rewrite IH. destruct l as [| y l]; [reflexivity |].
    cbn [JS.sort_insert].
    replace (Qle_bool (by_weightedPercent x y) 0) with true; [reflexivity |].
    symmetry. apply compare_ranked. now inversion Hhead. }
  now rewrite !Hfixed.
Qed.

Lemma ranking_is_idempotent_witness :
  JS.sort by_weightedPercent [pupil "B" 90%Q; pupil "C" 70%Q; pupil "A" 70%Q] =
  [pupil "B" 90%Q; pupil "C" 70%Q; pupil "A" 70%Q].
Proof.
  apply (ranking_is_idempotent
           [pupil "B" 90%Q; pupil "C" 70%Q; pupil "A" 70%Q]).
  repeat constructor; discriminate.
Defined.
